(** * cdsexec/mockcmd: the single-response double and the multi-command matcher

    A shallow embedding of [mockcmd/single_cmd] ([MockCmd]) and of
    [mockcmd/multi_cmd] ([CommandConfig], [MultiCmdMockCmd], [MultiCmdMock]),
    followed by the properties of the matcher.

    Modelling conventions.
    - A Go slice is first modelled by its nil-ness and its elements:
      [None] is the nil slice, [Some l] a non-nil slice holding [l].  These
      definitions give the contents a call reads and returns.
    - The byte slices are then followed down to their arrays, in [Mem]:
      a store of arrays, slices as windows with a capacity, and [append]
      writing in place.  What depends on arrays being shared between
      [Stdout], [Stderr] and the expectations is stated there.
    - A Go [error] is [option errval]; [None] is the nil error.
    - A method with a pointer receiver becomes a function from the receiver's
      state to the new state and the returned values. *)

From Stdlib Require Import List Bool Arith Lia.
From Stdlib.Strings Require Import String Ascii Byte.
Import ListNotations.

Open Scope string_scope.
Open Scope list_scope.

(** ** Go values used by the package *)

Module Go.

Definition slice (A : Type) : Type := option (list A).

Definition elems {A : Type} (s : slice A) : list A :=
  match s with
  | Some l => l
  | None => []
  end.

Definition len {A : Type} (s : slice A) : nat := List.length (elems s).

Definition is_nil {A : Type} (s : slice A) : bool :=
  match s with
  | Some _ => false
  | None => true
  end.

(** The contents of the slice that [append(s, t...)] returns: a nil [s]
    stays nil when nothing is appended.  Where [append] writes is the matter
    of [Mem.append] below. *)
Definition append {A : Type} (s t : slice A) : slice A :=
  match s with
  | Some l => Some (l ++ elems t)
  | None =>
      match elems t with
      | [] => None
      | x :: l => Some (x :: l)
      end
  end.

(** The conversion [[]byte(s)]; its result is never nil. *)
Definition bytes (s : string) : slice byte := Some (list_byte_of_string s).

(** [string(b)] for a byte slice. *)
Definition string_of (b : slice byte) : string :=
  string_of_list_byte (elems b).

(** [strings.Join(elems, sep)]. *)
Definition Join (s : slice string) (sep : string) : string :=
  String.concat sep (elems s).

Fixpoint strings_eqb (a b : list string) : bool :=
  match a, b with
  | [], [] => true
  | x :: a', y :: b' => (x =? y)%string && strings_eqb a' b'
  | _, _ => false
  end.

(** [reflect.DeepEqual] at type [[]string]: both nil or both non-nil,
    the same length, and equal elements. *)
Definition DeepEqual (a b : slice string) : bool :=
  match a, b with
  | None, None => true
  | Some x, Some y => strings_eqb x y
  | _, _ => false
  end.

(** Error values.  [ErrNoMatchingCommand] is the package-level sentinel,
    [ErrNotFound] is [exec.ErrNotFound], and [ErrorValue id] stands for any
    other error value, [id] being its identity. *)
Inductive errval : Type :=
| ErrNoMatchingCommand
| ErrNotFound
| ErrorValue (id : nat).

Definition error : Type := option errval.

(** [context.Context]: an interface value, possibly nil. *)
Record ctxval : Type := { ctx_id : nat; ctx_done : bool }.

Definition Context : Type := option ctxval.

Definition Background : Context := Some {| ctx_id := 0; ctx_done := false |}.

End Go.

Import Go.

(** ** single_cmd: [MockCmd] *)

Module MockCmd.

(** The data fields of the struct.  [CheckFunc] receives a pointer to the
    command, so it may read and update these fields. *)
Record fields : Type := {
  Stdout : slice byte;
  Stderr : slice byte;
  Err : error;
  Ctx : Context;
  Name : string;
  Args : slice string;
  Dir : string;
  Env : slice string;
  startCalled : bool;
  waitCalled : bool
}.

Record t : Type := {
  data :> fields;
  CheckFunc : option (fields -> fields * error)
}.

Definition set_data (m : t) (d : fields) : t :=
  {| data := d; CheckFunc := CheckFunc m |}.

Definition set_Stdout (m : t) (v : slice byte) : t :=
  set_data m
    {| Stdout := v; Stderr := Stderr m; Err := Err m; Ctx := Ctx m;
       Name := Name m; Args := Args m; Dir := Dir m; Env := Env m;
       startCalled := startCalled m; waitCalled := waitCalled m |}.

Definition set_Stderr (m : t) (v : slice byte) : t :=
  set_data m
    {| Stdout := Stdout m; Stderr := v; Err := Err m; Ctx := Ctx m;
       Name := Name m; Args := Args m; Dir := Dir m; Env := Env m;
       startCalled := startCalled m; waitCalled := waitCalled m |}.

Definition set_Err (m : t) (v : error) : t :=
  set_data m
    {| Stdout := Stdout m; Stderr := Stderr m; Err := v; Ctx := Ctx m;
       Name := Name m; Args := Args m; Dir := Dir m; Env := Env m;
       startCalled := startCalled m; waitCalled := waitCalled m |}.

Definition set_Ctx (m : t) (v : Context) : t :=
  set_data m
    {| Stdout := Stdout m; Stderr := Stderr m; Err := Err m; Ctx := v;
       Name := Name m; Args := Args m; Dir := Dir m; Env := Env m;
       startCalled := startCalled m; waitCalled := waitCalled m |}.

Definition set_Name (m : t) (v : string) : t :=
  set_data m
    {| Stdout := Stdout m; Stderr := Stderr m; Err := Err m; Ctx := Ctx m;
       Name := v; Args := Args m; Dir := Dir m; Env := Env m;
       startCalled := startCalled m; waitCalled := waitCalled m |}.

Definition set_Args (m : t) (v : slice string) : t :=
  set_data m
    {| Stdout := Stdout m; Stderr := Stderr m; Err := Err m; Ctx := Ctx m;
       Name := Name m; Args := v; Dir := Dir m; Env := Env m;
       startCalled := startCalled m; waitCalled := waitCalled m |}.

Definition set_startCalled (m : t) (v : bool) : t :=
  set_data m
    {| Stdout := Stdout m; Stderr := Stderr m; Err := Err m; Ctx := Ctx m;
       Name := Name m; Args := Args m; Dir := Dir m; Env := Env m;
       startCalled := v; waitCalled := waitCalled m |}.

Definition set_waitCalled (m : t) (v : bool) : t :=
  set_data m
    {| Stdout := Stdout m; Stderr := Stderr m; Err := Err m; Ctx := Ctx m;
       Name := Name m; Args := Args m; Dir := Dir m; Env := Env m;
       startCalled := startCalled m; waitCalled := v |}.

(** [SetDir] and [SetEnv]. *)
Definition SetDir (m : t) (dir : string) : t :=
  set_data m
    {| Stdout := Stdout m; Stderr := Stderr m; Err := Err m; Ctx := Ctx m;
       Name := Name m; Args := Args m; Dir := dir; Env := Env m;
       startCalled := startCalled m; waitCalled := waitCalled m |}.

Definition SetEnv (m : t) (env : slice string) : t :=
  set_data m
    {| Stdout := Stdout m; Stderr := Stderr m; Err := Err m; Ctx := Ctx m;
       Name := Name m; Args := Args m; Dir := Dir m; Env := env;
       startCalled := startCalled m; waitCalled := waitCalled m |}.

(** The zero value [MockCmd{}]. *)
Definition zero : t :=
  {| data :=
       {| Stdout := None; Stderr := None; Err := None; Ctx := None;
          Name := ""; Args := None; Dir := ""; Env := None;
          startCalled := false; waitCalled := false |};
     CheckFunc := None |}.

(** [m.CheckFunc(m)] for a non-nil [CheckFunc]. *)
Definition call_check (m : t) (f : fields -> fields * error) : t * error :=
  let (d, err) := f (data m) in (set_data m d, err).

Definition mockCommandContext (ctx : Context) (name : string)
    (arg : slice string) : t :=
  set_Args (set_Name (set_Ctx zero ctx) name) arg.

Definition Run (m : t) : t * error :=
  match CheckFunc m with
  | Some f =>
      let (m, err) := call_check m f in
      match err with
      | Some e => (m, Some e)
      | None => (m, Err m)
      end
  | None => (m, Err m)
  end.

Definition Output (m : t) : t * (slice byte * error) :=
  match CheckFunc m with
  | Some f =>
      let (m, err) := call_check m f in
      match err with
      | Some e => (m, (None, Some e))
      | None => (m, (Stdout m, Err m))
      end
  | None => (m, (Stdout m, Err m))
  end.

Definition CombinedOutput (m : t) : t * (slice byte * error) :=
  match CheckFunc m with
  | Some f =>
      let (m, err) := call_check m f in
      match err with
      | Some e => (m, (None, Some e))
      | None => (m, (append (Stdout m) (Stderr m), Err m))
      end
  | None => (m, (append (Stdout m) (Stderr m), Err m))
  end.

Definition Start (m : t) : t * error :=
  let m := set_startCalled m true in
  match CheckFunc m with
  | Some f => call_check m f
  | None => (m, Err m)
  end.

Definition Wait (m : t) : t * error :=
  let m := set_waitCalled m true in
  (m, Err m).

Definition MakeMockCmdWithOutput (fixedOutput : string)
    (checkFunc : option (fields -> fields * error))
    (ctx : Context) (name : string) (arg : slice string) : t :=
  let c := mockCommandContext ctx name arg in
  let c := set_Stdout c (bytes fixedOutput) in
  {| data := data c; CheckFunc := checkFunc |}.

Definition MakeMockCmdWithOutputGenericError
    (checkFunc : option (fields -> fields * error))
    (ctx : Context) (name : string) (arg : slice string) : t :=
  let c := mockCommandContext ctx name arg in
  let c := {| data := data c; CheckFunc := checkFunc |} in
  set_Err c (Some ErrNotFound).

Definition MakeMockCmdWithOutputSpecificError (fixedOutput : string)
    (specificError : error)
    (checkFunc : option (fields -> fields * error))
    (ctx : Context) (name : string) (arg : slice string) : t :=
  let c := mockCommandContext ctx name arg in
  let c := set_Stdout c (bytes fixedOutput) in
  let c := {| data := data c; CheckFunc := checkFunc |} in
  set_Err c specificError.

Definition MakeMockCmd (c : t)
    (ctx : Context) (name : string) (arg : slice string) : t := c.

End MockCmd.

(** ** multi_cmd: [CommandConfig] and [MultiCmdMockCmd] *)

Module CommandConfig.

Record t : Type := {
  Name : string;
  Args : slice string;
  Stdout : slice byte;
  Stderr : slice byte;
  Err : error
}.

End CommandConfig.

Module MultiCmdMockCmd.

(** [embedded] is the embedded [MockCmd]; [configs] is only ever ranged
    over, so it is a list. *)
Record t : Type := {
  embedded : MockCmd.t;
  configs : list CommandConfig.t;
  lastMatchedCmd : option CommandConfig.t
}.

(** Fields promoted from the embedded struct. *)
Definition Stdout (m : t) : slice byte :=
  MockCmd.Stdout (MockCmd.data (embedded m)).
Definition Stderr (m : t) : slice byte :=
  MockCmd.Stderr (MockCmd.data (embedded m)).
Definition Err (m : t) : error :=
  MockCmd.Err (MockCmd.data (embedded m)).
Definition Ctx (m : t) : Context :=
  MockCmd.Ctx (MockCmd.data (embedded m)).
Definition Name (m : t) : string :=
  MockCmd.Name (MockCmd.data (embedded m)).
Definition Args (m : t) : slice string :=
  MockCmd.Args (MockCmd.data (embedded m)).

Definition set_embedded (m : t) (c : MockCmd.t) : t :=
  {| embedded := c; configs := configs m;
     lastMatchedCmd := lastMatchedCmd m |}.

Definition set_lastMatchedCmd (m : t) (v : option CommandConfig.t) : t :=
  {| embedded := embedded m; configs := configs m; lastMatchedCmd := v |}.

Definition set_Stdout (m : t) (v : slice byte) : t :=
  set_embedded m (MockCmd.set_Stdout (embedded m) v).

Definition set_Stderr (m : t) (v : slice byte) : t :=
  set_embedded m (MockCmd.set_Stderr (embedded m) v).

Definition set_Err (m : t) (v : error) : t :=
  set_embedded m (MockCmd.set_Err (embedded m) v).

Definition set_Ctx (m : t) (v : Context) : t :=
  set_embedded m (MockCmd.set_Ctx (embedded m) v).

Definition set_Name (m : t) (v : string) : t :=
  set_embedded m (MockCmd.set_Name (embedded m) v).

Definition set_Args (m : t) (v : slice string) : t :=
  set_embedded m (MockCmd.set_Args (embedded m) v).

(** The test of the [if] in [matchCommand]. *)
Definition matches (m : t) (config : CommandConfig.t) : bool :=
  (Name m =? CommandConfig.Name config)%string
  && DeepEqual (Args m) (CommandConfig.Args config).

(** The [for ... range] loop of [matchCommand]: [Some m'] when the loop
    returns from inside its body with the receiver in state [m'], [None]
    when it runs to the end of the list. *)
Fixpoint range_configs (m : t) (cs : list CommandConfig.t) : option t :=
  match cs with
  | [] => None
  | config :: rest =>
      if matches m config then
        let m := set_Stdout m (CommandConfig.Stdout config) in
        let m := set_Stderr m (CommandConfig.Stderr config) in
        let m := set_Err m (CommandConfig.Err config) in
        let m := set_lastMatchedCmd m (Some config) in
        Some m
      else range_configs m rest
  end.

Definition matchCommand (m : t) : t * error :=
  let m := set_lastMatchedCmd m None in
  match range_configs m (configs m) with
  | Some m => (m, None)
  | None =>
      let m := set_Stderr m None in
      let m := set_Err m (Some ErrNoMatchingCommand) in
      (m, None)
  end.

Definition Run (m : t) : t * error :=
  let (m, err) := matchCommand m in
  match err with
  | Some e => (m, Some e)
  | None => (m, Err m)
  end.

Definition Output (m : t) : t * (slice byte * error) :=
  let (m, err) := matchCommand m in
  match err with
  | Some e => (m, (None, Some e))
  | None => (m, (Stdout m, Err m))
  end.

Definition CombinedOutput (m : t) : t * (slice byte * error) :=
  let (m, err) := matchCommand m in
  match err with
  | Some e => (m, (None, Some e))
  | None => (m, (append (Stdout m) (Stderr m), Err m))
  end.

(** [fmt.Sprintf] with the format ["<prefix>: %s %s"]. *)
Definition String (m : t) : string :=
  match lastMatchedCmd m with
  | None =>
      ("No matching command found for: " ++ Name m ++ " "
         ++ Join (Args m) " ")%string
  | Some c =>
      ("Matched command: " ++ CommandConfig.Name c ++ " "
         ++ Join (CommandConfig.Args c) " ")%string
  end.

(** Methods promoted from the embedded [MockCmd]. *)
Definition Start (m : t) : t * error :=
  let (c, err) := MockCmd.Start (embedded m) in (set_embedded m c, err).

Definition Wait (m : t) : t * error :=
  let (c, err) := MockCmd.Wait (embedded m) in (set_embedded m c, err).

Definition SetDir (m : t) (dir : string) : t :=
  set_embedded m (MockCmd.SetDir (embedded m) dir).

Definition SetEnv (m : t) (env : slice string) : t :=
  set_embedded m (MockCmd.SetEnv (embedded m) env).

End MultiCmdMockCmd.

(** [MultiCmdMock(configs...)] applied to [(ctx, name, arg...)]. *)
Definition MultiCmdMock (configs : list CommandConfig.t)
    (ctx : Context) (name : string) (arg : slice string)
    : MultiCmdMockCmd.t :=
  let cmd :=
    {| MultiCmdMockCmd.embedded := MockCmd.zero;
       MultiCmdMockCmd.configs := configs;
       MultiCmdMockCmd.lastMatchedCmd := None |} in
  let cmd := MultiCmdMockCmd.set_Ctx cmd ctx in
  let cmd := MultiCmdMockCmd.set_Name cmd name in
  let cmd := MultiCmdMockCmd.set_Args cmd arg in
  cmd.

(** ** Test scaffolding: sequences of calls on one handle *)

(** [calls op n m]: the results of [n] successive calls of [op] on the handle
    that starts in state [m]. *)
Fixpoint calls {R : Type} (op : MultiCmdMockCmd.t -> MultiCmdMockCmd.t * R)
    (n : nat) (m : MultiCmdMockCmd.t) : list R :=
  match n with
  | 0 => []
  | S n' => let (m', r) := op m in r :: calls op n' m'
  end.

(** The result-producing operations of the [Commander] interface, and what
    a caller observes of each. *)
Inductive call : Type :=
| CallRun
| CallOutput
| CallCombinedOutput.

Inductive observed : Type :=
| RunResult (err : error)
| OutputResult (out : slice byte) (err : error).

Definition perform (c : call) (m : MultiCmdMockCmd.t)
    : MultiCmdMockCmd.t * observed :=
  match c with
  | CallRun =>
      let (m', err) := MultiCmdMockCmd.Run m in (m', RunResult err)
  | CallOutput =>
      let (m', r) := MultiCmdMockCmd.Output m in
      (m', OutputResult (fst r) (snd r))
  | CallCombinedOutput =>
      let (m', r) := MultiCmdMockCmd.CombinedOutput m in
      (m', OutputResult (fst r) (snd r))
  end.

Fixpoint perform_all (cs : list call) (m : MultiCmdMockCmd.t)
    : list observed :=
  match cs with
  | [] => []
  | c :: rest => let (m', r) := perform c m in r :: perform_all rest m'
  end.

(** ** Specification vocabulary *)

(** The invocation held by [m] equals the pattern of [c]. *)
Definition same_pattern (m : MultiCmdMockCmd.t) (c : CommandConfig.t) : Prop :=
  CommandConfig.Name c = MultiCmdMockCmd.Name m
  /\ CommandConfig.Args c = MultiCmdMockCmd.Args m.

(** [c] is the earliest entry of [m]'s list whose pattern is [m]'s
    invocation. *)
Definition first_match (m : MultiCmdMockCmd.t) (c : CommandConfig.t) : Prop :=
  exists pre post,
    MultiCmdMockCmd.configs m = pre ++ c :: post
    /\ (forall x, In x pre -> ~ same_pattern m x)
    /\ same_pattern m c.

Definition no_match (m : MultiCmdMockCmd.t) : Prop :=
  forall x, In x (MultiCmdMockCmd.configs m) -> ~ same_pattern m x.

(** The handle records an expectation of its list, one with the pattern of
    its invocation, as last matched. *)
Definition matched (m : MultiCmdMockCmd.t) : Prop :=
  exists c,
    MultiCmdMockCmd.lastMatchedCmd m = Some c
    /\ In c (MultiCmdMockCmd.configs m)
    /\ same_pattern m c.

(** The call returned the sentinel and the handle records no expectation. *)
Definition unmatched (m : MultiCmdMockCmd.t) (err : error) : Prop :=
  err = Some ErrNoMatchingCommand
  /\ MultiCmdMockCmd.lastMatchedCmd m = None.

(** The error a caller gets from a result-producing operation. *)
Definition error_of (r : observed) : error :=
  match r with
  | RunResult err => err
  | OutputResult _ err => err
  end.

(** Exactly one of two propositions. *)
Definition exactly_one (A B : Prop) : Prop := (A \/ B) /\ ~ (A /\ B).

(** The receiver after the body of the [if] in the loop. *)
Definition adopt (m : MultiCmdMockCmd.t) (c : CommandConfig.t)
    : MultiCmdMockCmd.t :=
  MultiCmdMockCmd.set_lastMatchedCmd
    (MultiCmdMockCmd.set_Err
       (MultiCmdMockCmd.set_Stderr
          (MultiCmdMockCmd.set_Stdout m (CommandConfig.Stdout c))
          (CommandConfig.Stderr c))
       (CommandConfig.Err c))
    (Some c).

(** The receiver after the code that follows the loop. *)
Definition unmatched_state (m : MultiCmdMockCmd.t) : MultiCmdMockCmd.t :=
  MultiCmdMockCmd.set_Err
    (MultiCmdMockCmd.set_Stderr m None) (Some ErrNoMatchingCommand).

(** ** Predicates for [CheckFunc] *)

(** A predicate that reads the command and leaves it as it is. *)
Definition inspect (p : MockCmd.fields -> error)
    : MockCmd.fields -> MockCmd.fields * error :=
  fun d => (d, p d).

(** The predicate of the package's documentation: reject every command whose
    name is not [expected]. *)
Definition expect_name (expected : string) (e : errval)
    : MockCmd.fields -> error :=
  fun d => if (MockCmd.Name d =? expected)%string then None else Some e.

(** The command has no predicate, or one that only inspects. *)
Definition inspecting (m : MockCmd.t) : Prop :=
  MockCmd.CheckFunc m = None
  \/ exists p, MockCmd.CheckFunc m = Some (inspect p).

(** ** Concrete configurations used by the examples *)

Module Examples.

Definition cfg (name : string) (args : slice string)
    (out err : slice byte) (e : error) : CommandConfig.t :=
  {| CommandConfig.Name := name; CommandConfig.Args := args;
     CommandConfig.Stdout := out; CommandConfig.Stderr := err;
     CommandConfig.Err := e |}.

Definition ls_l : CommandConfig.t :=
  cfg "ls" (Some ["-l"]) (bytes "file1") None None.

Definition cat_file1 : CommandConfig.t :=
  cfg "cat" (Some ["file1"]) (bytes "contents of file1") None None.

Definition rm_file2 : CommandConfig.t :=
  cfg "rm" (Some ["file2"]) (bytes "partial") None (Some (ErrorValue 1)).

Definition echo_hello : CommandConfig.t :=
  cfg "echo" (Some ["hello"]) (bytes "hello") (bytes " world") None.

(** A later entry with the pattern of [ls_l]. *)
Definition ls_l_again : CommandConfig.t :=
  cfg "ls" (Some ["-l"]) (bytes "shadowed") (bytes "shadowed")
    (Some (ErrorValue 2)).

(** [Args: []string{}]: an empty, non-nil argument slice. *)
Definition pwd_empty_args : CommandConfig.t :=
  cfg "pwd" (Some []) (bytes "/root") None None.

Definition configs : list CommandConfig.t :=
  [ls_l; cat_file1; rm_file2; echo_hello; ls_l_again].

(** [pwd] configured with no [Args] field: a nil argument slice. *)
Definition pwd_nil_args : CommandConfig.t :=
  cfg "pwd" None (bytes "first") None None.

End Examples.

(** * The same code over backing arrays

    The definitions above give, for one call, the contents of every slice
    read at that call.  Go's [append] may write into the array behind its
    first argument, and [matchCommand] makes the handle's [Stdout] share the
    array of the expectation's [Stdout].  The definitions below follow the
    byte slices down to their arrays: a store of arrays, slices as windows
    on them, and [append] writing in place when the capacity allows. *)

Module Mem.

(** The arrays allocated so far; an array is named by its index. *)
Definition store : Type := list (list byte).

(** A non-nil byte slice: its array, the index of its first element in the
    array, its length and its capacity. *)
Record window : Type := { arr : nat; off : nat; len : nat; cap : nat }.

(** A byte slice; [None] is the nil slice. *)
Definition byteslice : Type := option window.

(** The elements of a slice in a store. *)
Definition read (h : store) (s : byteslice) : list byte :=
  match s with
  | None => []
  | Some w => firstn (len w) (skipn (off w) (nth (arr w) h []))
  end.

(** The slice as a value: its nil-ness and its elements in [h]. *)
Definition content (h : store) (s : byteslice) : Go.slice byte :=
  match s with
  | None => None
  | Some w => Some (read h (Some w))
  end.

(** [copy(a[pos:], bs)] on the array [a]. *)
Definition overwrite (pos : nat) (bs a : list byte) : list byte :=
  firstn pos a ++ bs ++ skipn (pos + List.length bs) a.

Fixpoint update (h : store) (i : nat) (f : list byte -> list byte) : store :=
  match h, i with
  | [], _ => []
  | a :: h', 0 => f a :: h'
  | a :: h', S i' => a :: update h' i' f
  end.

(** A new array holding [bs]; the slice returned covers it all. *)
Definition alloc (h : store) (bs : list byte) : store * window :=
  (h ++ [bs],
   {| arr := List.length h; off := 0; len := List.length bs;
      cap := List.length bs |}).

(** The slice expression [s[lo:hi]] on a non-nil slice. *)
Definition reslice (w : window) (lo hi : nat) : window :=
  {| arr := arr w; off := off w + lo; len := hi - lo; cap := cap w - lo |}.

(** [append(s, t...)].  The elements of [t] are read first, as [memmove]
    does; they are written behind the elements of [s] in the array of [s]
    when its capacity allows, and into a new array otherwise.  The runtime
    may give a new array more capacity than needed; nothing here reads it. *)
Definition append (h : store) (s t : byteslice) : store * byteslice :=
  let tb := read h t in
  match s with
  | None =>
      match tb with
      | [] => (h, None)
      | _ :: _ => let (h', w) := alloc h tb in (h', Some w)
      end
  | Some w =>
      if (len w + List.length tb <=? cap w)%nat then
        (update h (arr w) (overwrite (off w + len w) tb),
         Some {| arr := arr w; off := off w;
                 len := len w + List.length tb; cap := cap w |})
      else
        let (h', w') := alloc h (read h s ++ tb) in (h', Some w')
  end.

Module CommandConfig.

Record t : Type := {
  Name : string;
  Args : Go.slice string;
  Stdout : byteslice;
  Stderr : byteslice;
  Err : error
}.

End CommandConfig.

Module MockCmd.

Record fields : Type := {
  Stdout : byteslice;
  Stderr : byteslice;
  Err : error;
  Ctx : Context;
  Name : string;
  Args : Go.slice string;
  Dir : string;
  Env : Go.slice string;
  startCalled : bool;
  waitCalled : bool
}.

(** [CheckFunc] may read and write the command and the arrays. *)
Record t : Type := {
  data :> fields;
  CheckFunc : option (store -> fields -> store * fields * error)
}.

Definition set_data (m : t) (d : fields) : t :=
  {| data := d; CheckFunc := CheckFunc m |}.

Definition set_Stdout (m : t) (v : byteslice) : t :=
  set_data m
    {| Stdout := v; Stderr := Stderr m; Err := Err m; Ctx := Ctx m;
       Name := Name m; Args := Args m; Dir := Dir m; Env := Env m;
       startCalled := startCalled m; waitCalled := waitCalled m |}.

Definition set_Stderr (m : t) (v : byteslice) : t :=
  set_data m
    {| Stdout := Stdout m; Stderr := v; Err := Err m; Ctx := Ctx m;
       Name := Name m; Args := Args m; Dir := Dir m; Env := Env m;
       startCalled := startCalled m; waitCalled := waitCalled m |}.

Definition set_Err (m : t) (v : error) : t :=
  set_data m
    {| Stdout := Stdout m; Stderr := Stderr m; Err := v; Ctx := Ctx m;
       Name := Name m; Args := Args m; Dir := Dir m; Env := Env m;
       startCalled := startCalled m; waitCalled := waitCalled m |}.

Definition set_Ctx (m : t) (v : Context) : t :=
  set_data m
    {| Stdout := Stdout m; Stderr := Stderr m; Err := Err m; Ctx := v;
       Name := Name m; Args := Args m; Dir := Dir m; Env := Env m;
       startCalled := startCalled m; waitCalled := waitCalled m |}.

Definition set_Name (m : t) (v : string) : t :=
  set_data m
    {| Stdout := Stdout m; Stderr := Stderr m; Err := Err m; Ctx := Ctx m;
       Name := v; Args := Args m; Dir := Dir m; Env := Env m;
       startCalled := startCalled m; waitCalled := waitCalled m |}.

Definition set_Args (m : t) (v : Go.slice string) : t :=
  set_data m
    {| Stdout := Stdout m; Stderr := Stderr m; Err := Err m; Ctx := Ctx m;
       Name := Name m; Args := v; Dir := Dir m; Env := Env m;
       startCalled := startCalled m; waitCalled := waitCalled m |}.

Definition set_startCalled (m : t) (v : bool) : t :=
  set_data m
    {| Stdout := Stdout m; Stderr := Stderr m; Err := Err m; Ctx := Ctx m;
       Name := Name m; Args := Args m; Dir := Dir m; Env := Env m;
       startCalled := v; waitCalled := waitCalled m |}.

Definition set_waitCalled (m : t) (v : bool) : t :=
  set_data m
    {| Stdout := Stdout m; Stderr := Stderr m; Err := Err m; Ctx := Ctx m;
       Name := Name m; Args := Args m; Dir := Dir m; Env := Env m;
       startCalled := startCalled m; waitCalled := v |}.

Definition zero : t :=
  {| data :=
       {| Stdout := None; Stderr := None; Err := None; Ctx := None;
          Name := ""; Args := None; Dir := ""; Env := None;
          startCalled := false; waitCalled := false |};
     CheckFunc := None |}.

(** [m.CheckFunc(m)] for a non-nil [CheckFunc]. *)
Definition call_check (h : store) (m : t)
    (f : store -> fields -> store * fields * error) : store * t * error :=
  let '(h', d, err) := f h (data m) in (h', set_data m d, err).

Definition Run (h : store) (m : t) : store * t * error :=
  match CheckFunc m with
  | Some f =>
      let '(h, m, err) := call_check h m f in
      match err with
      | Some e => (h, m, Some e)
      | None => (h, m, Err m)
      end
  | None => (h, m, Err m)
  end.

Definition Output (h : store) (m : t) : store * t * (byteslice * error) :=
  match CheckFunc m with
  | Some f =>
      let '(h, m, err) := call_check h m f in
      match err with
      | Some e => (h, m, (None, Some e))
      | None => (h, m, (Stdout m, Err m))
      end
  | None => (h, m, (Stdout m, Err m))
  end.

Definition CombinedOutput (h : store) (m : t)
    : store * t * (byteslice * error) :=
  match CheckFunc m with
  | Some f =>
      let '(h, m, err) := call_check h m f in
      match err with
      | Some e => (h, m, (None, Some e))
      | None =>
          let (h', out) := append h (Stdout m) (Stderr m) in
          (h', m, (out, Err m))
      end
  | None =>
      let (h', out) := append h (Stdout m) (Stderr m) in
      (h', m, (out, Err m))
  end.

End MockCmd.

Module MultiCmdMockCmd.

Record t : Type := {
  embedded : MockCmd.t;
  configs : list CommandConfig.t;
  lastMatchedCmd : option CommandConfig.t
}.

Definition Stdout (m : t) : byteslice :=
  MockCmd.Stdout (MockCmd.data (embedded m)).
Definition Stderr (m : t) : byteslice :=
  MockCmd.Stderr (MockCmd.data (embedded m)).
Definition Err (m : t) : error :=
  MockCmd.Err (MockCmd.data (embedded m)).
Definition Ctx (m : t) : Context :=
  MockCmd.Ctx (MockCmd.data (embedded m)).
Definition Name (m : t) : string :=
  MockCmd.Name (MockCmd.data (embedded m)).
Definition Args (m : t) : Go.slice string :=
  MockCmd.Args (MockCmd.data (embedded m)).

Definition set_embedded (m : t) (c : MockCmd.t) : t :=
  {| embedded := c; configs := configs m;
     lastMatchedCmd := lastMatchedCmd m |}.

Definition set_lastMatchedCmd (m : t) (v : option CommandConfig.t) : t :=
  {| embedded := embedded m; configs := configs m; lastMatchedCmd := v |}.

Definition set_Stdout (m : t) (v : byteslice) : t :=
  set_embedded m (MockCmd.set_Stdout (embedded m) v).

Definition set_Stderr (m : t) (v : byteslice) : t :=
  set_embedded m (MockCmd.set_Stderr (embedded m) v).

Definition set_Err (m : t) (v : error) : t :=
  set_embedded m (MockCmd.set_Err (embedded m) v).

Definition set_Ctx (m : t) (v : Context) : t :=
  set_embedded m (MockCmd.set_Ctx (embedded m) v).

Definition set_Name (m : t) (v : string) : t :=
  set_embedded m (MockCmd.set_Name (embedded m) v).

Definition set_Args (m : t) (v : Go.slice string) : t :=
  set_embedded m (MockCmd.set_Args (embedded m) v).

Definition matches (m : t) (config : CommandConfig.t) : bool :=
  (Name m =? CommandConfig.Name config)%string
  && DeepEqual (Args m) (CommandConfig.Args config).

(** The loop of [matchCommand]; it copies slice headers and touches no
    array. *)
Fixpoint range_configs (m : t) (cs : list CommandConfig.t) : option t :=
  match cs with
  | [] => None
  | config :: rest =>
      if matches m config then
        let m := set_Stdout m (CommandConfig.Stdout config) in
        let m := set_Stderr m (CommandConfig.Stderr config) in
        let m := set_Err m (CommandConfig.Err config) in
        let m := set_lastMatchedCmd m (Some config) in
        Some m
      else range_configs m rest
  end.

Definition matchCommand (m : t) : t * error :=
  let m := set_lastMatchedCmd m None in
  match range_configs m (configs m) with
  | Some m => (m, None)
  | None =>
      let m := set_Stderr m None in
      let m := set_Err m (Some ErrNoMatchingCommand) in
      (m, None)
  end.

Definition Run (h : store) (m : t) : store * t * error :=
  let (m, err) := matchCommand m in
  match err with
  | Some e => (h, m, Some e)
  | None => (h, m, Err m)
  end.

Definition Output (h : store) (m : t) : store * t * (byteslice * error) :=
  let (m, err) := matchCommand m in
  match err with
  | Some e => (h, m, (None, Some e))
  | None => (h, m, (Stdout m, Err m))
  end.

Definition CombinedOutput (h : store) (m : t)
    : store * t * (byteslice * error) :=
  let (m, err) := matchCommand m in
  match err with
  | Some e => (h, m, (None, Some e))
  | None =>
      let (h', out) := append h (Stdout m) (Stderr m) in
      (h', m, (out, Err m))
  end.

End MultiCmdMockCmd.

Definition MultiCmdMock (configs : list CommandConfig.t)
    (ctx : Context) (name : string) (arg : Go.slice string)
    : MultiCmdMockCmd.t :=
  let cmd :=
    {| MultiCmdMockCmd.embedded := MockCmd.zero;
       MultiCmdMockCmd.configs := configs;
       MultiCmdMockCmd.lastMatchedCmd := None |} in
  let cmd := MultiCmdMockCmd.set_Ctx cmd ctx in
  let cmd := MultiCmdMockCmd.set_Name cmd name in
  let cmd := MultiCmdMockCmd.set_Args cmd arg in
  cmd.

(** The receiver after the body of the [if] in the loop, and after the code
    that follows the loop. *)
Definition adopt (m : MultiCmdMockCmd.t) (c : CommandConfig.t)
    : MultiCmdMockCmd.t :=
  MultiCmdMockCmd.set_lastMatchedCmd
    (MultiCmdMockCmd.set_Err
       (MultiCmdMockCmd.set_Stderr
          (MultiCmdMockCmd.set_Stdout m (CommandConfig.Stdout c))
          (CommandConfig.Stderr c))
       (CommandConfig.Err c))
    (Some c).

Definition unmatched_state (m : MultiCmdMockCmd.t) : MultiCmdMockCmd.t :=
  MultiCmdMockCmd.set_Err
    (MultiCmdMockCmd.set_Stderr m None) (Some ErrNoMatchingCommand).

(** The store, the handle and the bytes a caller reads after a call. *)
Definition store_of {S R : Type} (r : store * S * R) : store := fst (fst r).
Definition state_of {S R : Type} (r : store * S * R) : S := snd (fst r).
Definition result_of {S R : Type} (r : store * S * R) : R := snd r.

Definition bytes_read {S : Type} (r : store * S * (byteslice * error))
    : list byte :=
  read (store_of r) (fst (result_of r)).

(** What a caller observes of a call: the error, and for the two output
    operations the contents of the returned slice, read when the call
    returns. *)
Definition perform (k : call) (h : store) (m : MultiCmdMockCmd.t)
    : store * MultiCmdMockCmd.t * observed :=
  match k with
  | CallRun =>
      let r := MultiCmdMockCmd.Run h m in
      (store_of r, state_of r, RunResult (result_of r))
  | CallOutput =>
      let r := MultiCmdMockCmd.Output h m in
      (store_of r, state_of r,
       OutputResult (content (store_of r) (fst (result_of r)))
         (snd (result_of r)))
  | CallCombinedOutput =>
      let r := MultiCmdMockCmd.CombinedOutput h m in
      (store_of r, state_of r,
       OutputResult (content (store_of r) (fst (result_of r)))
         (snd (result_of r)))
  end.

Fixpoint perform_all (ks : list call) (h : store) (m : MultiCmdMockCmd.t)
    : list observed :=
  match ks with
  | [] => []
  | k :: rest =>
      let r := perform k h m in
      result_of r :: perform_all rest (store_of r) (state_of r)
  end.

(** A slice lies within its array: [off + cap] does not pass the end of the
    array and [len] does not pass [cap]. *)
Definition within (h : store) (s : byteslice) : Prop :=
  match s with
  | None => True
  | Some w =>
      arr w < List.length h
      /\ off w + cap w <= List.length (nth (arr w) h [])
      /\ len w <= cap w
  end.

(** The window of [u] does not meet the [n] bytes that lie behind the
    elements of [s] in its array. *)
Definition apart (s : byteslice) (n : nat) (u : byteslice) : Prop :=
  match s, u with
  | Some w, Some v =>
      arr v <> arr w
      \/ off v + len v <= off w + len w
      \/ off w + len w + n <= off v
  | _, _ => True
  end.

(** [n] successive calls of [CombinedOutput()], each result read when it is
    returned. *)
Fixpoint CombinedOutput_calls (n : nat) (h : store) (m : MultiCmdMockCmd.t)
    : list (list byte * error) :=
  match n with
  | 0 => []
  | S n' =>
      let r := MultiCmdMockCmd.CombinedOutput h m in
      (bytes_read r, snd (result_of r))
      :: CombinedOutput_calls n' (store_of r) (state_of r)
  end.

End Mem.

(** ** Arrays shared between expectations *)

Module Shared.

(** [buf := []byte("0123456789")]. *)
Definition store0 : Mem.store := [list_byte_of_string "0123456789"].

Definition buf : Mem.window :=
  {| Mem.arr := 0; Mem.off := 0; Mem.len := 10; Mem.cap := 10 |}.

(** [CommandConfig{Name: "a", Stdout: buf[:5], Stderr: buf[3:8]}]. *)
Definition overlapping : Mem.CommandConfig.t :=
  {| Mem.CommandConfig.Name := "a";
     Mem.CommandConfig.Args := None;
     Mem.CommandConfig.Stdout := Some (Mem.reslice buf 0 5);
     Mem.CommandConfig.Stderr := Some (Mem.reslice buf 3 8);
     Mem.CommandConfig.Err := None |}.

(** The store after [errText := []byte("ERR")]. *)
Definition store1 : Mem.store :=
  fst (Mem.alloc store0 (list_byte_of_string "ERR")).

Definition errText : Mem.window :=
  snd (Mem.alloc store0 (list_byte_of_string "ERR")).

(** [CommandConfig{Name: "a", Stdout: buf[0:5], Stderr: errText}] and
    [CommandConfig{Name: "b", Stdout: buf[5:10]}]. *)
Definition first_half : Mem.CommandConfig.t :=
  {| Mem.CommandConfig.Name := "a";
     Mem.CommandConfig.Args := None;
     Mem.CommandConfig.Stdout := Some (Mem.reslice buf 0 5);
     Mem.CommandConfig.Stderr := Some errText;
     Mem.CommandConfig.Err := None |}.

Definition second_half : Mem.CommandConfig.t :=
  {| Mem.CommandConfig.Name := "b";
     Mem.CommandConfig.Args := None;
     Mem.CommandConfig.Stdout := Some (Mem.reslice buf 5 10);
     Mem.CommandConfig.Stderr := None;
     Mem.CommandConfig.Err := None |}.

End Shared.

(** ** Equality tests *)

Lemma strings_eqb_eq (a b : list string) :
  strings_eqb a b = true <-> a = b.
Proof.
  revert b; induction a as [|x a IH]; intros [|y b]; simpl;
    try (split; [discriminate | discriminate]); try tauto.
  rewrite andb_true_iff, String.eqb_eq, IH.
  split; [intros [-> ->]; reflexivity | intros H; inversion H; auto].
Qed.

Lemma DeepEqual_eq (a b : slice string) : DeepEqual a b = true <-> a = b.
Proof.
  destruct a as [x|], b as [y|]; simpl.
  - rewrite strings_eqb_eq. split; [intros ->; reflexivity | congruence].
  - split; discriminate.
  - split; discriminate.
  - tauto.
Qed.

Lemma matches_same_pattern (m : MultiCmdMockCmd.t) (c : CommandConfig.t) :
  MultiCmdMockCmd.matches m c = true <-> same_pattern m c.
Proof.
  unfold MultiCmdMockCmd.matches, same_pattern.
  rewrite andb_true_iff, String.eqb_eq, DeepEqual_eq.
  split; intros [H1 H2]; split; congruence.
Qed.

Lemma matches_false_iff (m : MultiCmdMockCmd.t) (c : CommandConfig.t) :
  MultiCmdMockCmd.matches m c = false <-> ~ same_pattern m c.
Proof.
  rewrite <- matches_same_pattern.
  destruct (MultiCmdMockCmd.matches m c); split; congruence.
Qed.

(** ** The scan of [matchCommand] *)

Lemma range_configs_hit (m : MultiCmdMockCmd.t) pre c post :
  (forall x, In x pre -> MultiCmdMockCmd.matches m x = false) ->
  MultiCmdMockCmd.matches m c = true ->
  MultiCmdMockCmd.range_configs m (pre ++ c :: post) = Some (adopt m c).
Proof.
  induction pre as [|x pre IH]; simpl; intros Hpre Hc.
  - rewrite Hc. reflexivity.
  - rewrite (Hpre x (or_introl eq_refl)). apply IH; auto.
Qed.

Lemma range_configs_miss (m : MultiCmdMockCmd.t) cs :
  (forall x, In x cs -> MultiCmdMockCmd.matches m x = false) ->
  MultiCmdMockCmd.range_configs m cs = None.
Proof.
  induction cs as [|x cs IH]; simpl; intros H; [reflexivity|].
  rewrite (H x (or_introl eq_refl)). apply IH; auto.
Qed.

Lemma range_configs_cases (m : MultiCmdMockCmd.t) cs :
  (exists pre c post,
      cs = pre ++ c :: post
      /\ (forall x, In x pre -> MultiCmdMockCmd.matches m x = false)
      /\ MultiCmdMockCmd.matches m c = true)
  \/ (forall x, In x cs -> MultiCmdMockCmd.matches m x = false).
Proof.
  induction cs as [|x cs IH]; [right; intros ? []|].
  destruct (MultiCmdMockCmd.matches m x) eqn:Hx.
  - left. exists [], x, cs. repeat split; auto. intros ? [].
  - destruct IH as [(pre & c & post & -> & Hpre & Hc)|Hall].
    + left. exists (x :: pre), c, post. repeat split; auto.
      intros y [<-|Hy]; auto.
    + right. intros y [<-|Hy]; auto.
Qed.

Lemma first_match_or_no_match (m : MultiCmdMockCmd.t) :
  (exists c, first_match m c) \/ no_match m.
Proof.
  destruct (range_configs_cases m (MultiCmdMockCmd.configs m))
    as [(pre & c & post & E & Hpre & Hc)|Hall].
  - left. exists c, pre, post. repeat split; auto.
    + intros x Hx. apply matches_false_iff; auto.
    + apply matches_same_pattern in Hc. apply Hc.
    + apply matches_same_pattern in Hc. apply Hc.
  - right. intros x Hx. apply matches_false_iff; auto.
Qed.

Lemma first_match_not_no_match (m : MultiCmdMockCmd.t) c :
  first_match m c -> ~ no_match m.
Proof.
  intros (pre & post & E & _ & Hc) Hno.
  apply (Hno c); [rewrite E; apply in_elt | exact Hc].
Qed.

Lemma matchCommand_hit (m : MultiCmdMockCmd.t) c :
  first_match m c ->
  MultiCmdMockCmd.matchCommand m
  = (adopt (MultiCmdMockCmd.set_lastMatchedCmd m None) c, None).
Proof.
  intros (pre & post & E & Hpre & Hc).
  unfold MultiCmdMockCmd.matchCommand. cbn [MultiCmdMockCmd.configs
    MultiCmdMockCmd.set_lastMatchedCmd]. rewrite E.
  rewrite range_configs_hit; [reflexivity| |].
  - intros x Hx. apply matches_false_iff. exact (Hpre x Hx).
  - apply matches_same_pattern. exact Hc.
Qed.

Lemma matchCommand_miss (m : MultiCmdMockCmd.t) :
  no_match m ->
  MultiCmdMockCmd.matchCommand m
  = (unmatched_state (MultiCmdMockCmd.set_lastMatchedCmd m None), None).
Proof.
  intros Hno. unfold MultiCmdMockCmd.matchCommand.
  rewrite range_configs_miss; [reflexivity|].
  intros x Hx. apply matches_false_iff. exact (Hno x Hx).
Qed.

Lemma no_match_by_scan (m : MultiCmdMockCmd.t) :
  forallb (fun c => negb (MultiCmdMockCmd.matches m c))
    (MultiCmdMockCmd.configs m) = true ->
  no_match m.
Proof.
  rewrite forallb_forall. intros H x Hx.
  apply matches_false_iff. apply negb_true_iff. exact (H x Hx).
Qed.

Lemma first_match_head (m : MultiCmdMockCmd.t) c rest :
  MultiCmdMockCmd.configs m = c :: rest ->
  MultiCmdMockCmd.matches m c = true ->
  first_match m c.
Proof.
  intros E Hc. exists [], rest. repeat split.
  - exact E.
  - intros x [].
  - apply matches_same_pattern in Hc. apply Hc.
  - apply matches_same_pattern in Hc. apply Hc.
Qed.

(** ** Output on a match, and every operation on a miss *)

(** C1, read with the element-wise equality of argument sequences, fails:
    the expectation [pwd] with [Args: []string{}] has the name and, element
    by element, the arguments of the invocation [pwd] made with no arguments,
    yet [Output()] returns a nil slice and the sentinel, not the stdout and
    error of that expectation. *)
Lemma C1_counterexample_nil_vs_empty :
  ~ ((exists c,
         In c (MultiCmdMockCmd.configs
                 (MultiCmdMock [Examples.pwd_empty_args] Background "pwd"
                    None))
         /\ CommandConfig.Name c
            = MultiCmdMockCmd.Name
                (MultiCmdMock [Examples.pwd_empty_args] Background "pwd" None)
         /\ elems (CommandConfig.Args c)
            = elems (MultiCmdMockCmd.Args
                       (MultiCmdMock [Examples.pwd_empty_args] Background
                          "pwd" None))) ->
      exists c,
        In c (MultiCmdMockCmd.configs
                (MultiCmdMock [Examples.pwd_empty_args] Background "pwd"
                   None))
        /\ snd (MultiCmdMockCmd.Output
                  (MultiCmdMock [Examples.pwd_empty_args] Background "pwd"
                     None))
           = (CommandConfig.Stdout c, CommandConfig.Err c))
  /\ snd (MultiCmdMockCmd.Output
            (MultiCmdMock [Examples.pwd_empty_args] Background "pwd" None))
     = (None, Some ErrNoMatchingCommand).
Proof.
  split; [|reflexivity].
  intros H. destruct H as (c & Hin & Hout).
  - exists Examples.pwd_empty_args. split; [left; reflexivity|].
    split; reflexivity.
  - destruct Hin as [<-|[]]. discriminate Hout.
Qed.

(** C1, amended: when some configured expectation has the name of the
    invocation held by a matcher handle and an argument slice deeply equal to
    its own (both nil or both non-nil, with the same elements in the same
    order), [Output()] returns the stdout bytes and the error of the first
    such expectation; the bytes are returned whatever the error is. *)
Theorem C1_Output_first_match (m : MultiCmdMockCmd.t) :
  (exists c, In c (MultiCmdMockCmd.configs m) /\ same_pattern m c) ->
  exists c,
    first_match m c
    /\ snd (MultiCmdMockCmd.Output m)
       = (CommandConfig.Stdout c, CommandConfig.Err c).
Proof.
  intros (c0 & Hin & Hpat).
  destruct (first_match_or_no_match m) as [[c Hc]|Hno].
  - exists c. split; [exact Hc|].
    unfold MultiCmdMockCmd.Output. rewrite (matchCommand_hit m c Hc).
    reflexivity.
  - exfalso. exact (Hno c0 Hin Hpat).
Qed.

(** The handle for [rm file2]: its expectation carries both stdout bytes
    and a non-nil error. *)
Lemma C1_Output_first_match_witness :
  (exists c,
      In c (MultiCmdMockCmd.configs
              (MultiCmdMock Examples.configs Background "rm" (Some ["file2"])))
      /\ same_pattern
           (MultiCmdMock Examples.configs Background "rm" (Some ["file2"])) c)
  /\ exists c,
      first_match
        (MultiCmdMock Examples.configs Background "rm" (Some ["file2"])) c
      /\ snd (MultiCmdMockCmd.Output
                (MultiCmdMock Examples.configs Background "rm"
                   (Some ["file2"])))
         = (CommandConfig.Stdout c, CommandConfig.Err c).
Proof.
  assert (H : exists c,
      In c (MultiCmdMockCmd.configs
              (MultiCmdMock Examples.configs Background "rm" (Some ["file2"])))
      /\ same_pattern
           (MultiCmdMock Examples.configs Background "rm" (Some ["file2"])) c).
  { exists Examples.rm_file2. split; [simpl; tauto | split; reflexivity]. }
  split; [exact H|].
  exact (C1_Output_first_match
           (MultiCmdMock Examples.configs Background "rm" (Some ["file2"])) H).
Defined.

(** C2: on a handle just returned by the factory, when no configured
    expectation has the invocation's pattern, [Run()], [Output()] and
    [CombinedOutput()] return the sentinel [ErrNoMatchingCommand], the two
    output operations return an empty (nil) slice, and no expectation is
    recorded as matched. *)
Theorem C2_no_match_sentinel (cs : list CommandConfig.t) (ctx : Context)
    (name : string) (arg : slice string) :
  (forall c, In c cs ->
     ~ (CommandConfig.Name c = name /\ CommandConfig.Args c = arg)) ->
  snd (MultiCmdMockCmd.Run (MultiCmdMock cs ctx name arg))
  = Some ErrNoMatchingCommand
  /\ snd (MultiCmdMockCmd.Output (MultiCmdMock cs ctx name arg))
     = (None, Some ErrNoMatchingCommand)
  /\ snd (MultiCmdMockCmd.CombinedOutput (MultiCmdMock cs ctx name arg))
     = (None, Some ErrNoMatchingCommand)
  /\ MultiCmdMockCmd.lastMatchedCmd
       (fst (MultiCmdMockCmd.matchCommand (MultiCmdMock cs ctx name arg)))
     = None.
Proof.
  intros H.
  assert (Hno : no_match (MultiCmdMock cs ctx name arg)) by exact H.
  unfold MultiCmdMockCmd.Run, MultiCmdMockCmd.Output,
    MultiCmdMockCmd.CombinedOutput.
  rewrite (matchCommand_miss _ Hno). repeat split.
Qed.

(** The "Partial Match" case of the test suite: [ls -l -a] against a list
    that holds [ls -l]. *)
Lemma C2_no_match_sentinel_witness :
  snd (MultiCmdMockCmd.Run
         (MultiCmdMock Examples.configs Background "ls" (Some ["-l"; "-a"])))
  = Some ErrNoMatchingCommand
  /\ snd (MultiCmdMockCmd.Output
            (MultiCmdMock Examples.configs Background "ls"
               (Some ["-l"; "-a"])))
     = (None, Some ErrNoMatchingCommand)
  /\ snd (MultiCmdMockCmd.CombinedOutput
            (MultiCmdMock Examples.configs Background "ls"
               (Some ["-l"; "-a"])))
     = (None, Some ErrNoMatchingCommand)
  /\ MultiCmdMockCmd.lastMatchedCmd
       (fst (MultiCmdMockCmd.matchCommand
               (MultiCmdMock Examples.configs Background "ls"
                  (Some ["-l"; "-a"]))))
     = None.
Proof.
  apply (C2_no_match_sentinel Examples.configs Background "ls"
           (Some ["-l"; "-a"])).
  apply (no_match_by_scan
           (MultiCmdMock Examples.configs Background "ls"
              (Some ["-l"; "-a"]))).
  reflexivity.
Defined.

(** ** The matching test *)

(** C3, as stated, fails: an invocation with no arguments passed
    ([arg] is nil) and an expectation configured with [Args: []string{}]
    have equal names and element-wise equal (empty) argument sequences, yet
    [reflect.DeepEqual] tells a nil slice from an empty one, so they do not
    match and [Output()] answers with the sentinel. *)
Lemma C3_counterexample_nil_vs_empty :
  ~ (MultiCmdMockCmd.matches
       (MultiCmdMock [Examples.pwd_empty_args] Background "pwd" None)
       Examples.pwd_empty_args = true
     <-> (MultiCmdMockCmd.Name
            (MultiCmdMock [Examples.pwd_empty_args] Background "pwd" None)
          = CommandConfig.Name Examples.pwd_empty_args
          /\ elems (MultiCmdMockCmd.Args
                      (MultiCmdMock [Examples.pwd_empty_args] Background
                         "pwd" None))
             = elems (CommandConfig.Args Examples.pwd_empty_args)))
  /\ snd (MultiCmdMockCmd.Output
            (MultiCmdMock [Examples.pwd_empty_args] Background "pwd" None))
     = (None, Some ErrNoMatchingCommand).
Proof.
  split; [|reflexivity].
  intros [_ H]. specialize (H (conj eq_refl eq_refl)). discriminate H.
Qed.

(** C3, amended: an invocation matches an expectation if and only if the
    names are equal, the two argument slices are both nil or both non-nil,
    and their elements are equal in order and in count. *)
Theorem C3_matches_iff (m : MultiCmdMockCmd.t) (c : CommandConfig.t) :
  MultiCmdMockCmd.matches m c = true
  <-> MultiCmdMockCmd.Name m = CommandConfig.Name c
      /\ is_nil (MultiCmdMockCmd.Args m) = is_nil (CommandConfig.Args c)
      /\ elems (MultiCmdMockCmd.Args m) = elems (CommandConfig.Args c).
Proof.
  rewrite matches_same_pattern. unfold same_pattern.
  destruct (MultiCmdMockCmd.Args m) as [a|], (CommandConfig.Args c) as [b|];
    simpl; split.
  - intros [-> E]. inversion E. auto.
  - intros (-> & _ & ->). auto.
  - intros [_ E]. discriminate E.
  - intros (_ & E & _). discriminate E.
  - intros [_ E]. discriminate E.
  - intros (_ & E & _). discriminate E.
  - intros [-> _]. auto.
  - intros (-> & _ & _). auto.
Qed.

(** ** What a call leaves in the handle *)

Lemma matchCommand_err (m : MultiCmdMockCmd.t) :
  snd (MultiCmdMockCmd.matchCommand m) = None.
Proof.
  unfold MultiCmdMockCmd.matchCommand.
  destruct (MultiCmdMockCmd.range_configs _ _); reflexivity.
Qed.

Lemma matchCommand_eta (m : MultiCmdMockCmd.t) :
  MultiCmdMockCmd.matchCommand m
  = (fst (MultiCmdMockCmd.matchCommand m), None).
Proof.
  rewrite <- (matchCommand_err m).
  destruct (MultiCmdMockCmd.matchCommand m); reflexivity.
Qed.

Lemma Run_eq (m : MultiCmdMockCmd.t) :
  MultiCmdMockCmd.Run m
  = (fst (MultiCmdMockCmd.matchCommand m),
     MultiCmdMockCmd.Err (fst (MultiCmdMockCmd.matchCommand m))).
Proof.
  unfold MultiCmdMockCmd.Run. rewrite (matchCommand_eta m). reflexivity.
Qed.

Lemma Output_eq (m : MultiCmdMockCmd.t) :
  MultiCmdMockCmd.Output m
  = (fst (MultiCmdMockCmd.matchCommand m),
     (MultiCmdMockCmd.Stdout (fst (MultiCmdMockCmd.matchCommand m)),
      MultiCmdMockCmd.Err (fst (MultiCmdMockCmd.matchCommand m)))).
Proof.
  unfold MultiCmdMockCmd.Output. rewrite (matchCommand_eta m). reflexivity.
Qed.

Lemma CombinedOutput_eq (m : MultiCmdMockCmd.t) :
  MultiCmdMockCmd.CombinedOutput m
  = (fst (MultiCmdMockCmd.matchCommand m),
     (append (MultiCmdMockCmd.Stdout (fst (MultiCmdMockCmd.matchCommand m)))
        (MultiCmdMockCmd.Stderr (fst (MultiCmdMockCmd.matchCommand m))),
      MultiCmdMockCmd.Err (fst (MultiCmdMockCmd.matchCommand m)))).
Proof.
  unfold MultiCmdMockCmd.CombinedOutput. rewrite (matchCommand_eta m).
  reflexivity.
Qed.

(** A second scan finds what the first one found: the state reached by one
    call is a fixed point of [matchCommand]. *)
Lemma matchCommand_idempotent (m : MultiCmdMockCmd.t) :
  fst (MultiCmdMockCmd.matchCommand (fst (MultiCmdMockCmd.matchCommand m)))
  = fst (MultiCmdMockCmd.matchCommand m).
Proof.
  destruct (first_match_or_no_match m) as [[c Hc]|Hno].
  - rewrite (matchCommand_hit m c Hc). cbn [fst].
    assert (Hc' : first_match
                    (adopt (MultiCmdMockCmd.set_lastMatchedCmd m None) c) c)
      by exact Hc.
    rewrite (matchCommand_hit _ c Hc'). reflexivity.
  - rewrite (matchCommand_miss m Hno). cbn [fst].
    assert (Hno' : no_match
                     (unmatched_state
                        (MultiCmdMockCmd.set_lastMatchedCmd m None)))
      by exact Hno.
    rewrite (matchCommand_miss _ Hno'). reflexivity.
Qed.

Lemma calls_stable {R : Type}
    (op : MultiCmdMockCmd.t -> MultiCmdMockCmd.t * R) :
  (forall m, fst (op (fst (op m))) = fst (op m)) ->
  (forall m, snd (op (fst (op m))) = snd (op m)) ->
  forall n m, calls op n m = repeat (snd (op m)) n.
Proof.
  intros Hst Hres n. induction n as [|n IH]; intros m; [reflexivity|].
  simpl. specialize (IH (fst (op m))). rewrite Hres in IH.
  destruct (op m) as [m' r]. simpl in *. rewrite IH. reflexivity.
Qed.

Lemma elems_append {A : Type} (s t : slice A) :
  elems (append s t) = elems s ++ elems t.
Proof.
  destruct s as [l|]; simpl; [reflexivity|].
  destruct (elems t); reflexivity.
Qed.

Lemma app_eq_same_length {A : Type} (l1 l2 r1 r2 : list A) :
  List.length l1 = List.length l2 ->
  l1 ++ r1 = l2 ++ r2 -> l1 = l2 /\ r1 = r2.
Proof.
  revert l2; induction l1 as [|x l1 IH]; intros [|y l2]; simpl;
    try discriminate; [auto|].
  intros Hlen E. injection Hlen as Hlen. injection E as -> E.
  destruct (IH l2 Hlen E) as [-> ->]. auto.
Qed.

(** ** Duplicated patterns *)

(** C4, read with the element-wise equality of argument sequences, fails:
    of two expectations named [pwd], the first with no [Args] (nil) and the
    second with [Args: []string{}], both with no argument at all, the
    invocation [pwd] made with an empty non-nil argument slice adopts the
    second: the later entry is reached. *)
Lemma C4_counterexample_later_entry_reached :
  CommandConfig.Name Examples.pwd_empty_args
  = CommandConfig.Name Examples.pwd_nil_args
  /\ elems (CommandConfig.Args Examples.pwd_empty_args)
     = elems (CommandConfig.Args Examples.pwd_nil_args)
  /\ elems (MultiCmdMockCmd.Args
              (MultiCmdMock [Examples.pwd_nil_args; Examples.pwd_empty_args]
                 Background "pwd" (Some [])))
     = elems (CommandConfig.Args Examples.pwd_nil_args)
  /\ MultiCmdMockCmd.lastMatchedCmd
       (fst (MultiCmdMockCmd.matchCommand
               (MultiCmdMock [Examples.pwd_nil_args; Examples.pwd_empty_args]
                  Background "pwd" (Some []))))
     = Some Examples.pwd_empty_args
  /\ snd (MultiCmdMockCmd.Output
            (MultiCmdMock [Examples.pwd_nil_args; Examples.pwd_empty_args]
               Background "pwd" (Some [])))
     = (CommandConfig.Stdout Examples.pwd_empty_args, None)
  /\ snd (MultiCmdMockCmd.Output
            (MultiCmdMock [Examples.pwd_nil_args; Examples.pwd_empty_args]
               Background "pwd" (Some [])))
     <> (CommandConfig.Stdout Examples.pwd_nil_args,
         CommandConfig.Err Examples.pwd_nil_args).
Proof.
  repeat split. intros H. discriminate H.
Qed.

(** C4, amended: when a list holds two expectations with the same name and
    deeply equal argument slices (both nil or both non-nil, with the same
    elements in the same order), every call whose invocation has that pattern
    adopts the stdout, stderr and error of the earliest expectation with it;
    whatever the invocation, the entry adopted by a scan never sits at the
    position of the later duplicate; and the factory stores the list as
    given, duplicates included. *)
Theorem C4_duplicates_first_wins (m : MultiCmdMockCmd.t)
    (pre mid post : list CommandConfig.t) (c c' : CommandConfig.t) :
  MultiCmdMockCmd.configs m = pre ++ c :: mid ++ c' :: post ->
  CommandConfig.Name c' = CommandConfig.Name c ->
  CommandConfig.Args c' = CommandConfig.Args c ->
  (forall x, In x pre ->
     ~ (CommandConfig.Name x = CommandConfig.Name c
        /\ CommandConfig.Args x = CommandConfig.Args c)) ->
  (same_pattern m c ->
     MultiCmdMockCmd.Stdout (fst (MultiCmdMockCmd.matchCommand m))
     = CommandConfig.Stdout c
     /\ MultiCmdMockCmd.Stderr (fst (MultiCmdMockCmd.matchCommand m))
        = CommandConfig.Stderr c
     /\ MultiCmdMockCmd.Err (fst (MultiCmdMockCmd.matchCommand m))
        = CommandConfig.Err c
     /\ MultiCmdMockCmd.lastMatchedCmd (fst (MultiCmdMockCmd.matchCommand m))
        = Some c)
  /\ (forall pre' x post',
        MultiCmdMockCmd.configs m = pre' ++ x :: post' ->
        (forall y, In y pre' -> ~ same_pattern m y) ->
        same_pattern m x ->
        List.length pre' <> List.length (pre ++ c :: mid))
  /\ (forall ctx name arg,
        MultiCmdMockCmd.configs
          (MultiCmdMock (MultiCmdMockCmd.configs m) ctx name arg)
        = MultiCmdMockCmd.configs m).
Proof.
  intros E Hn Ha Hpre. split; [|split].
  - intros Hc.
    assert (Hfm : first_match m c).
    { exists pre, (mid ++ c' :: post). repeat split; try apply Hc; auto.
      intros x Hx [H1 H2]. apply (Hpre x Hx).
      destruct Hc as [H3 H4]. split; congruence. }
    rewrite (matchCommand_hit m c Hfm). repeat split.
  - intros pre' x post' E' Hearlier Hx Hlen.
    rewrite E in E'.
    change (pre ++ c :: mid ++ c' :: post)
      with (pre ++ (c :: mid) ++ c' :: post) in E'.
    rewrite app_assoc in E'.
    destruct (app_eq_same_length _ _ _ _ (eq_sym Hlen) E') as [Epre Ex].
    injection Ex as Ex _. subst x.
    apply (Hearlier c).
    + rewrite <- Epre. apply in_elt.
    + destruct Hx as [H1 H2]. split; congruence.
  - reflexivity.
Qed.

(** [ls -l] is configured first and again last; the first entry wins. *)
Lemma C4_duplicates_first_wins_witness :
  MultiCmdMockCmd.Stdout
    (fst (MultiCmdMockCmd.matchCommand
            (MultiCmdMock Examples.configs Background "ls" (Some ["-l"]))))
  = bytes "file1"
  /\ MultiCmdMockCmd.lastMatchedCmd
       (fst (MultiCmdMockCmd.matchCommand
               (MultiCmdMock Examples.configs Background "ls"
                  (Some ["-l"]))))
     = Some Examples.ls_l.
Proof.
  pose proof
    (C4_duplicates_first_wins
       (MultiCmdMock Examples.configs Background "ls" (Some ["-l"]))
       [] [Examples.cat_file1; Examples.rm_file2; Examples.echo_hello] []
       Examples.ls_l Examples.ls_l_again
       eq_refl eq_refl eq_refl (fun x (H : In x []) => False_ind _ H)) as H.
  destruct H as [H _].
  destruct (H (conj eq_refl eq_refl)) as (H1 & _ & _ & H4).
  split; [exact H1 | exact H4].
Defined.

(** ** Combined output *)

(** C5: on a match, [CombinedOutput()] returns the matched expectation's
    stdout bytes followed at once by its stderr bytes, with its error. *)
Theorem C5_CombinedOutput_concat (m : MultiCmdMockCmd.t)
    (c : CommandConfig.t) :
  first_match m c ->
  snd (MultiCmdMockCmd.CombinedOutput m)
  = (append (CommandConfig.Stdout c) (CommandConfig.Stderr c),
     CommandConfig.Err c)
  /\ elems (fst (snd (MultiCmdMockCmd.CombinedOutput m)))
     = elems (CommandConfig.Stdout c) ++ elems (CommandConfig.Stderr c).
Proof.
  intros Hc. rewrite CombinedOutput_eq, (matchCommand_hit m c Hc).
  cbn [fst snd]. split; [reflexivity|].
  change (MultiCmdMockCmd.Stdout _) with (CommandConfig.Stdout c).
  change (MultiCmdMockCmd.Stderr _) with (CommandConfig.Stderr c).
  apply elems_append.
Qed.

(** Stdout [hello] and stderr [ world] give [hello world]. *)
Lemma C5_CombinedOutput_concat_witness :
  first_match
    (MultiCmdMock Examples.configs Background "echo" (Some ["hello"]))
    Examples.echo_hello
  /\ elems (fst (snd (MultiCmdMockCmd.CombinedOutput
                        (MultiCmdMock Examples.configs Background "echo"
                           (Some ["hello"])))))
     = list_byte_of_string "hello world".
Proof.
  assert (H : first_match
                (MultiCmdMock Examples.configs Background "echo"
                   (Some ["hello"]))
                Examples.echo_hello).
  { exists [Examples.ls_l; Examples.cat_file1; Examples.rm_file2],
      [Examples.ls_l_again].
    split; [reflexivity|]. split; [|split; reflexivity].
    intros x [<-|[<-|[<-|[]]]] [H _]; discriminate H. }
  split; [exact H|].
  exact (proj2 (C5_CombinedOutput_concat _ _ H)).
Defined.

(** ** Matched or sentinel *)

Lemma perform_state (k : call) (m : MultiCmdMockCmd.t) :
  fst (perform k m) = fst (MultiCmdMockCmd.matchCommand m).
Proof.
  destruct k; unfold perform;
    [rewrite Run_eq | rewrite Output_eq | rewrite CombinedOutput_eq];
    reflexivity.
Qed.

Lemma perform_error (k : call) (m : MultiCmdMockCmd.t) :
  error_of (snd (perform k m))
  = MultiCmdMockCmd.Err (fst (MultiCmdMockCmd.matchCommand m)).
Proof.
  destruct k; unfold perform;
    [rewrite Run_eq | rewrite Output_eq | rewrite CombinedOutput_eq];
    reflexivity.
Qed.

(** C6: after [Run()], [Output()] or [CombinedOutput()], exactly one of the
    two holds: the handle records a matched expectation, or the call returned
    the sentinel and the handle records none.  The configured errors are
    arbitrary: they may be the sentinel itself. *)
Theorem C6_matched_xor_sentinel (k : call) (m : MultiCmdMockCmd.t) :
  exactly_one
    (matched (fst (perform k m)))
    (unmatched (fst (perform k m)) (error_of (snd (perform k m)))).
Proof.
  rewrite perform_error, perform_state.
  destruct (first_match_or_no_match m) as [[c Hc]|Hno].
  - rewrite (matchCommand_hit m c Hc). cbn [fst]. split.
    + left. exists c. split; [reflexivity|].
      destruct Hc as (pre & post & E & _ & Hpat). split; [|exact Hpat].
      change (In c (MultiCmdMockCmd.configs m)). rewrite E. apply in_elt.
    + intros [_ [_ H]]. discriminate H.
  - rewrite (matchCommand_miss m Hno). cbn [fst]. split.
    + right. split; reflexivity.
    + intros [(c & H & _) _]. discriminate H.
Qed.

(** ** Repeated calls *)

(** [Run()] and [Output()] append nothing: repeated, each returns what the
    first call returned. *)
Lemma Run_Output_repeated (m : MultiCmdMockCmd.t) (n : nat) :
  calls MultiCmdMockCmd.Run n m = repeat (snd (MultiCmdMockCmd.Run m)) n
  /\ calls MultiCmdMockCmd.Output n m
     = repeat (snd (MultiCmdMockCmd.Output m)) n.
Proof.
  split; apply calls_stable; intros m0;
    rewrite ?Run_eq, ?Output_eq; cbn [fst snd];
    rewrite ?Run_eq, ?Output_eq; cbn [fst snd];
    rewrite ?matchCommand_idempotent; reflexivity.
Qed.

(** C7 does not hold of [CombinedOutput()]: with
    [buf := []byte("0123456789")] and the one expectation
    [{Name: "a", Stdout: buf[:5], Stderr: buf[3:8]}], the first call appends
    the stderr bytes in place behind [buf[:5]], which rewrites the bytes
    [buf[3:8]] reads; the first call returns [0123434567] and the second
    [0123434345], both with a nil error. *)
Theorem C7_CombinedOutput_repeated_differs :
  Mem.CombinedOutput_calls 2 Shared.store0
    (Mem.MultiCmdMock [Shared.overlapping] Background "a" None)
  = [(list_byte_of_string "0123434567", None);
     (list_byte_of_string "0123434345", None)].
Proof. reflexivity. Qed.

(** ** The diagnostic string *)

(** C8, as stated, fails on the letters: the text begins with a capital. *)
Lemma C8_counterexample_capital :
  MultiCmdMockCmd.String
    (fst (MultiCmdMockCmd.Output
            (MultiCmdMock Examples.configs Background "ls" (Some ["-l"]))))
  <> "matched command: ls -l"
  /\ MultiCmdMockCmd.String
       (fst (MultiCmdMockCmd.Output
               (MultiCmdMock Examples.configs Background "ls"
                  (Some ["-a"]))))
     <> "no matching command found for: ls -a"
  /\ MultiCmdMockCmd.String
       (MultiCmdMock Examples.configs Background "ls" (Some ["-l"]))
     <> "no matching command found for: ls -l".
Proof.
  repeat split; intros H; discriminate H.
Qed.

(** C8, amended: after a result-producing call, [String()] reads
    [Matched command: <name> <args>] when the call matched and
    [No matching command found for: <name> <args>] when it did not, [<args>]
    being the arguments joined by single spaces; a handle just returned by
    the factory reads the latter. *)
Theorem C8_String_after_call (k : call) (m : MultiCmdMockCmd.t) :
  ((exists c, first_match m c) ->
     MultiCmdMockCmd.String (fst (perform k m))
     = ("Matched command: " ++ MultiCmdMockCmd.Name m ++ " "
          ++ Join (MultiCmdMockCmd.Args m) " ")%string)
  /\ (no_match m ->
        MultiCmdMockCmd.String (fst (perform k m))
        = ("No matching command found for: " ++ MultiCmdMockCmd.Name m ++ " "
             ++ Join (MultiCmdMockCmd.Args m) " ")%string)
  /\ (forall cs ctx name arg,
        MultiCmdMockCmd.String (MultiCmdMock cs ctx name arg)
        = ("No matching command found for: " ++ name ++ " "
             ++ Join arg " ")%string).
Proof.
  rewrite perform_state. split; [|split; [|reflexivity]].
  - intros [c Hc]. rewrite (matchCommand_hit m c Hc).
    destruct Hc as (_ & _ & _ & _ & Hn & Ha).
    unfold MultiCmdMockCmd.String. cbn [fst adopt
      MultiCmdMockCmd.lastMatchedCmd MultiCmdMockCmd.set_lastMatchedCmd].
    rewrite Hn, Ha. reflexivity.
  - intros Hno. rewrite (matchCommand_miss m Hno). reflexivity.
Qed.

(** The flip of the test suite: [ls -l] matches, [ls -a] does not. *)
Lemma C8_String_after_call_witness :
  MultiCmdMockCmd.String
    (fst (perform CallOutput
            (MultiCmdMock Examples.configs Background "ls" (Some ["-l"]))))
  = "Matched command: ls -l"
  /\ MultiCmdMockCmd.String
       (fst (perform CallOutput
               (MultiCmdMock Examples.configs Background "ls"
                  (Some ["-a"]))))
     = "No matching command found for: ls -a".
Proof.
  split.
  - apply (proj1 (C8_String_after_call CallOutput
             (MultiCmdMock Examples.configs Background "ls" (Some ["-l"])))).
    exists Examples.ls_l.
    apply (first_match_head _ _
             [Examples.cat_file1; Examples.rm_file2; Examples.echo_hello;
              Examples.ls_l_again]); reflexivity.
  - apply (proj1 (proj2 (C8_String_after_call CallOutput
             (MultiCmdMock Examples.configs Background "ls" (Some ["-a"]))))).
    apply no_match_by_scan. reflexivity.
Defined.

(** ** The list of expectations and the context *)

Lemma matchCommand_configs (m : MultiCmdMockCmd.t) :
  MultiCmdMockCmd.configs (fst (MultiCmdMockCmd.matchCommand m))
  = MultiCmdMockCmd.configs m.
Proof.
  destruct (first_match_or_no_match m) as [[c Hc]|Hno].
  - rewrite (matchCommand_hit m c Hc). reflexivity.
  - rewrite (matchCommand_miss m Hno). reflexivity.
Qed.

(** C9 does not hold of the bytes of the expectations.  With
    [buf := []byte("0123456789")] and the expectations
    [{Name: "a", Stdout: buf[0:5], Stderr: []byte("ERR")}] and
    [{Name: "b", Stdout: buf[5:10]}], [CombinedOutput()] on a handle for [a]
    leaves the list with the slices it had, returns [01234ERR], and writes
    [ERR] over [buf[5:8]]: the stdout of [b], which read [56789], reads
    [ERR89], and that is what [Output()] on a handle for [b] returns. *)
Theorem C9_CombinedOutput_overwrites_expectation :
  Mem.read Shared.store1 (Mem.CommandConfig.Stdout Shared.second_half)
  = list_byte_of_string "56789"
  /\ Mem.bytes_read
       (Mem.MultiCmdMockCmd.Output Shared.store1
          (Mem.MultiCmdMock [Shared.first_half; Shared.second_half]
             Background "b" None))
     = list_byte_of_string "56789"
  /\ Mem.bytes_read
       (Mem.MultiCmdMockCmd.CombinedOutput Shared.store1
          (Mem.MultiCmdMock [Shared.first_half; Shared.second_half]
             Background "a" None))
     = list_byte_of_string "01234ERR"
  /\ Mem.MultiCmdMockCmd.configs
       (Mem.state_of
          (Mem.MultiCmdMockCmd.CombinedOutput Shared.store1
             (Mem.MultiCmdMock [Shared.first_half; Shared.second_half]
                Background "a" None)))
     = [Shared.first_half; Shared.second_half]
  /\ Mem.read
       (Mem.store_of
          (Mem.MultiCmdMockCmd.CombinedOutput Shared.store1
             (Mem.MultiCmdMock [Shared.first_half; Shared.second_half]
                Background "a" None)))
       (Mem.CommandConfig.Stdout Shared.second_half)
     = list_byte_of_string "ERR89"
  /\ Mem.bytes_read
       (Mem.MultiCmdMockCmd.Output
          (Mem.store_of
             (Mem.MultiCmdMockCmd.CombinedOutput Shared.store1
                (Mem.MultiCmdMock [Shared.first_half; Shared.second_half]
                   Background "a" None)))
          (Mem.MultiCmdMock [Shared.first_half; Shared.second_half]
             Background "b" None))
     = list_byte_of_string "ERR89".
Proof. repeat split. Qed.

(** ** The single-response double *)

(** C10: with a [CheckFunc] set, [Start()] returns what the predicate
    returns, so a predicate that returns nil makes [Start()] return nil
    whatever [Err] holds; [Run()], [Output()] and [CombinedOutput()] go on,
    after a predicate that returns nil, to return the [Err] field. *)
Theorem C10_Start_returns_predicate_result (m : MockCmd.t)
    (f : MockCmd.fields -> MockCmd.fields * error) :
  MockCmd.CheckFunc m = Some f ->
  MockCmd.Start m = MockCmd.call_check (MockCmd.set_startCalled m true) f
  /\ (snd (f (MockCmd.data (MockCmd.set_startCalled m true))) = None ->
        snd (MockCmd.Start m) = None)
  /\ (snd (f (MockCmd.data m)) = None ->
        snd (MockCmd.Run m) = MockCmd.Err (fst (f (MockCmd.data m)))
        /\ snd (MockCmd.Output m)
           = (MockCmd.Stdout (fst (f (MockCmd.data m))),
              MockCmd.Err (fst (f (MockCmd.data m))))
        /\ snd (MockCmd.CombinedOutput m)
           = (append (MockCmd.Stdout (fst (f (MockCmd.data m))))
                (MockCmd.Stderr (fst (f (MockCmd.data m)))),
              MockCmd.Err (fst (f (MockCmd.data m))))).
Proof.
  intros Hf. split; [|split].
  - unfold MockCmd.Start. cbn [MockCmd.CheckFunc MockCmd.set_startCalled
      MockCmd.set_data]. rewrite Hf. reflexivity.
  - intros Hnil. unfold MockCmd.Start. cbn [MockCmd.CheckFunc
      MockCmd.set_startCalled MockCmd.set_data]. rewrite Hf.
    unfold MockCmd.call_check.
    destruct (f _) as [d e]. exact Hnil.
  - intros Hnil.
    unfold MockCmd.Run, MockCmd.Output, MockCmd.CombinedOutput.
    rewrite Hf. unfold MockCmd.call_check.
    destruct (f (MockCmd.data m)) as [d e]. simpl in Hnil. subst e.
    repeat split.
Qed.

(** A double made by [MakeMockCmdWithOutputGenericError] with a predicate
    that accepts everything: [Err] is [exec.ErrNotFound], [Start()] returns
    nil and [Run()] returns [exec.ErrNotFound]. *)
Lemma C10_Start_returns_predicate_result_witness :
  MockCmd.Err
    (MockCmd.data
       (MockCmd.MakeMockCmdWithOutputGenericError
          (Some (fun d => (d, None))) Background "ls" (Some ["-l"])))
  = Some ErrNotFound
  /\ snd (MockCmd.Start
            (MockCmd.MakeMockCmdWithOutputGenericError
               (Some (fun d => (d, None))) Background "ls" (Some ["-l"])))
     = None
  /\ snd (MockCmd.Run
            (MockCmd.MakeMockCmdWithOutputGenericError
               (Some (fun d => (d, None))) Background "ls" (Some ["-l"])))
     = Some ErrNotFound.
Proof.
  pose proof
    (C10_Start_returns_predicate_result
       (MockCmd.MakeMockCmdWithOutputGenericError
          (Some (fun d => (d, None))) Background "ls" (Some ["-l"]))
       (fun d => (d, None)) eq_refl) as (_ & HStart & HRun).
  split; [reflexivity|]. split.
  - exact (HStart eq_refl).
  - exact (proj1 (HRun eq_refl)).
Defined.


(** ** The cases of the test suite, evaluated *)

Example readme_ls_l :
  snd (MultiCmdMockCmd.Output
         (MultiCmdMock [Examples.ls_l; Examples.cat_file1] Background "ls"
            (Some ["-l"])))
  = (bytes "file1", None).
Proof. reflexivity. Qed.

Example readme_unknown_command :
  snd (MultiCmdMockCmd.Output
         (MultiCmdMock [Examples.ls_l; Examples.cat_file1] Background
            "unknown" (Some ["command"])))
  = (None, Some ErrNoMatchingCommand).
Proof. reflexivity. Qed.

Example argument_order_matters :
  MultiCmdMockCmd.matches
    (MultiCmdMock [] Background "cp" (Some ["b"; "a"]))
    (Examples.cfg "cp" (Some ["a"; "b"]) None None None)
  = false.
Proof. reflexivity. Qed.

Example proper_prefix_does_not_match :
  MultiCmdMockCmd.matches
    (MultiCmdMock [] Background "ls" (Some ["-l"]))
    (Examples.cfg "ls" (Some ["-l"; "-a"]) None None None)
  = false
  /\ MultiCmdMockCmd.matches
       (MultiCmdMock [] Background "ls" (Some ["-l"; "-a"]))
       (Examples.cfg "ls" (Some ["-l"]) None None None)
     = false.
Proof. split; reflexivity. Qed.

Example nil_arguments_match_nil_arguments :
  MultiCmdMockCmd.matches
    (MultiCmdMock [] Background "pwd" None)
    (Examples.cfg "pwd" None None None None)
  = true
  /\ MultiCmdMockCmd.matches
       (MultiCmdMock [] Background "pwd" (Some []))
       Examples.pwd_empty_args
     = true.
Proof. split; reflexivity. Qed.

Example configured_sentinel_still_matched :
  matched
    (fst (MultiCmdMockCmd.Run
            (MultiCmdMock
               [Examples.cfg "ls" None None None (Some ErrNoMatchingCommand)]
               Background "ls" None)))
  /\ snd (MultiCmdMockCmd.Run
            (MultiCmdMock
               [Examples.cfg "ls" None None None (Some ErrNoMatchingCommand)]
               Background "ls" None))
     = Some ErrNoMatchingCommand.
Proof.
  split; [|reflexivity].
  exists (Examples.cfg "ls" None None None (Some ErrNoMatchingCommand)).
  split; [reflexivity|]. split; [left; reflexivity | split; reflexivity].
Qed.


(** * Further properties of the package *)

(** ** The scan as a search *)

Lemma range_configs_find (m : MultiCmdMockCmd.t) cs :
  MultiCmdMockCmd.range_configs m cs
  = option_map (adopt m) (find (MultiCmdMockCmd.matches m) cs).
Proof.
  induction cs as [|c cs IH]; [reflexivity|]. simpl.
  destruct (MultiCmdMockCmd.matches m c); [reflexivity | exact IH].
Qed.

Lemma matchCommand_find (m : MultiCmdMockCmd.t) :
  fst (MultiCmdMockCmd.matchCommand m)
  = match find (MultiCmdMockCmd.matches m) (MultiCmdMockCmd.configs m) with
    | Some c => adopt (MultiCmdMockCmd.set_lastMatchedCmd m None) c
    | None => unmatched_state (MultiCmdMockCmd.set_lastMatchedCmd m None)
    end.
Proof.
  unfold MultiCmdMockCmd.matchCommand. rewrite range_configs_find.
  change (find
            (MultiCmdMockCmd.matches
               (MultiCmdMockCmd.set_lastMatchedCmd m None))
            (MultiCmdMockCmd.configs
               (MultiCmdMockCmd.set_lastMatchedCmd m None)))
    with (find (MultiCmdMockCmd.matches m) (MultiCmdMockCmd.configs m)).
  destruct (find _ _); reflexivity.
Qed.

Lemma find_app_cases {A : Type} (f : A -> bool) (l1 l2 : list A) :
  find f (l1 ++ l2)
  = match find f l1 with
    | Some x => Some x
    | None => find f l2
    end.
Proof.
  induction l1 as [|x l1 IH]; [reflexivity|]. simpl.
  destruct (f x); [reflexivity | exact IH].
Qed.

Lemma matches_ext (m1 m2 : MultiCmdMockCmd.t) (c : CommandConfig.t) :
  MultiCmdMockCmd.Name m1 = MultiCmdMockCmd.Name m2 ->
  MultiCmdMockCmd.Args m1 = MultiCmdMockCmd.Args m2 ->
  MultiCmdMockCmd.matches m1 c = MultiCmdMockCmd.matches m2 c.
Proof.
  intros Hn Ha. unfold MultiCmdMockCmd.matches. rewrite Hn, Ha. reflexivity.
Qed.

Lemma find_matches_ext (m1 m2 : MultiCmdMockCmd.t) cs :
  MultiCmdMockCmd.Name m1 = MultiCmdMockCmd.Name m2 ->
  MultiCmdMockCmd.Args m1 = MultiCmdMockCmd.Args m2 ->
  find (MultiCmdMockCmd.matches m1) cs = find (MultiCmdMockCmd.matches m2) cs.
Proof.
  intros Hn Ha. induction cs as [|c cs IH]; [reflexivity|]. simpl.
  rewrite (matches_ext m1 m2 c Hn Ha), IH. reflexivity.
Qed.

(** X1: the loop of [matchCommand] is a search for the first entry that
    passes the test: after a result-producing call the handle records
    [find (matches m) (configs m)], and the error returned is that entry's
    [Err], or the sentinel when the search finds nothing. *)
Theorem X1_scan_is_find (k : call) (m : MultiCmdMockCmd.t) :
  MultiCmdMockCmd.lastMatchedCmd (fst (perform k m))
  = find (MultiCmdMockCmd.matches m) (MultiCmdMockCmd.configs m)
  /\ error_of (snd (perform k m))
     = match find (MultiCmdMockCmd.matches m) (MultiCmdMockCmd.configs m) with
       | Some c => CommandConfig.Err c
       | None => Some ErrNoMatchingCommand
       end.
Proof.
  rewrite perform_error, perform_state, matchCommand_find.
  destruct (find _ _); split; reflexivity.
Qed.

(** ** What the results depend on *)

Lemma perform_congr (k : call) (m1 m2 : MultiCmdMockCmd.t) :
  MultiCmdMockCmd.Name m1 = MultiCmdMockCmd.Name m2 ->
  MultiCmdMockCmd.Args m1 = MultiCmdMockCmd.Args m2 ->
  MultiCmdMockCmd.Stdout m1 = MultiCmdMockCmd.Stdout m2 ->
  find (MultiCmdMockCmd.matches m1) (MultiCmdMockCmd.configs m1)
  = find (MultiCmdMockCmd.matches m2) (MultiCmdMockCmd.configs m2) ->
  snd (perform k m1) = snd (perform k m2)
  /\ MultiCmdMockCmd.Stdout (fst (perform k m1))
     = MultiCmdMockCmd.Stdout (fst (perform k m2)).
Proof.
  intros Hn Ha Ho Hf.
  assert (H1 := matchCommand_find m1). assert (H2 := matchCommand_find m2).
  rewrite Hf in H1.
  destruct k; unfold perform;
    rewrite ?Run_eq, ?Output_eq, ?CombinedOutput_eq; cbn [fst snd];
    rewrite H1, H2;
    destruct (find (MultiCmdMockCmd.matches m2) (MultiCmdMockCmd.configs m2));
    split; try reflexivity;
    change (MultiCmdMockCmd.Stdout
              (unmatched_state (MultiCmdMockCmd.set_lastMatchedCmd m1 None)))
      with (MultiCmdMockCmd.Stdout m1);
    change (MultiCmdMockCmd.Stdout
              (unmatched_state (MultiCmdMockCmd.set_lastMatchedCmd m2 None)))
      with (MultiCmdMockCmd.Stdout m2);
    rewrite ?Ho; reflexivity.
Qed.

Lemma matchCommand_invocation (m : MultiCmdMockCmd.t) :
  MultiCmdMockCmd.Name (fst (MultiCmdMockCmd.matchCommand m))
  = MultiCmdMockCmd.Name m
  /\ MultiCmdMockCmd.Args (fst (MultiCmdMockCmd.matchCommand m))
     = MultiCmdMockCmd.Args m.
Proof.
  rewrite matchCommand_find. destruct (find _ _); split; reflexivity.
Qed.

Lemma perform_all_congr (ks : list call) :
  forall m1 m2 : MultiCmdMockCmd.t,
    MultiCmdMockCmd.Name m1 = MultiCmdMockCmd.Name m2 ->
    MultiCmdMockCmd.Args m1 = MultiCmdMockCmd.Args m2 ->
    MultiCmdMockCmd.Stdout m1 = MultiCmdMockCmd.Stdout m2 ->
    find (MultiCmdMockCmd.matches m1) (MultiCmdMockCmd.configs m1)
    = find (MultiCmdMockCmd.matches m2) (MultiCmdMockCmd.configs m2) ->
    perform_all ks m1 = perform_all ks m2.
Proof.
  induction ks as [|k ks IH]; intros m1 m2 Hn Ha Ho Hf; [reflexivity|].
  simpl.
  destruct (perform_congr k m1 m2 Hn Ha Ho Hf) as [Hr Ho'].
  assert (Hs1 := perform_state k m1). assert (Hs2 := perform_state k m2).
  destruct (matchCommand_invocation m1) as [En1 Ea1].
  destruct (matchCommand_invocation m2) as [En2 Ea2].
  assert (Ec1 := matchCommand_configs m1).
  assert (Ec2 := matchCommand_configs m2).
  destruct (perform k m1) as [m1' r1], (perform k m2) as [m2' r2].
  cbn [fst snd] in Hr, Ho', Hs1, Hs2. subst r2 m1' m2'. f_equal.
  apply IH; try congruence.
  rewrite Ec1, Ec2.
  rewrite (find_matches_ext _ m1 _ En1 Ea1).
  rewrite (find_matches_ext _ m2 _ En2 Ea2). exact Hf.
Qed.

Lemma find_hit_of_exists {A : Type} (f : A -> bool) (l : list A) :
  (exists x, In x l /\ f x = true) -> exists y, find f l = Some y.
Proof.
  induction l as [|a l IH]; intros (x & Hin & Hx); [destruct Hin|].
  simpl. destruct (f a) eqn:Ea; [exists a; reflexivity|].
  destruct Hin as [<-|Hin]; [congruence|]. apply IH. exists x. auto.
Qed.

Lemma find_miss_of_forall {A : Type} (f : A -> bool) (l : list A) :
  (forall x, In x l -> f x = false) -> find f l = None.
Proof.
  induction l as [|a l IH]; intros H; [reflexivity|]. simpl.
  rewrite (H a (or_introl eq_refl)). apply IH. intros x Hx. apply H. now right.
Qed.

(** X2: a list of expectations scanned as [cs1 ++ cs2] behaves as [cs1]
    alone for every invocation that some entry of [cs1] matches, and as [cs2]
    alone for every invocation that no entry of [cs1] matches; this holds for
    the results of every sequence of result-producing calls. *)
Theorem X2_expectations_append (cs1 cs2 : list CommandConfig.t)
    (ctx : Context) (name : string) (arg : slice string) (ks : list call) :
  ((exists c, In c cs1
              /\ CommandConfig.Name c = name /\ CommandConfig.Args c = arg) ->
     perform_all ks (MultiCmdMock (cs1 ++ cs2) ctx name arg)
     = perform_all ks (MultiCmdMock cs1 ctx name arg))
  /\ ((forall c, In c cs1 ->
         ~ (CommandConfig.Name c = name /\ CommandConfig.Args c = arg)) ->
        perform_all ks (MultiCmdMock (cs1 ++ cs2) ctx name arg)
        = perform_all ks (MultiCmdMock cs2 ctx name arg)).
Proof.
  split; intros H; apply perform_all_congr; try reflexivity;
    change (MultiCmdMockCmd.configs (MultiCmdMock (cs1 ++ cs2) ctx name arg))
      with (cs1 ++ cs2);
    rewrite find_app_cases.
  - destruct (find_hit_of_exists
                (MultiCmdMockCmd.matches
                   (MultiCmdMock (cs1 ++ cs2) ctx name arg)) cs1) as [y Hy].
    + destruct H as (c & Hin & Hpat). exists c. split; [exact Hin|].
      apply matches_same_pattern. exact Hpat.
    + rewrite Hy. symmetry. exact Hy.
  - rewrite find_miss_of_forall; [reflexivity|].
    intros x Hx. apply matches_false_iff. exact (H x Hx).
Qed.

(** Entries put after [ls -l] do not change what [ls -l] gets; entries put
    before [echo hello] that do not match it do not change what it gets. *)
Lemma X2_expectations_append_witness :
  perform_all [CallOutput; CallRun; CallCombinedOutput]
    (MultiCmdMock
       ([Examples.ls_l] ++ [Examples.rm_file2; Examples.ls_l_again])
       Background "ls" (Some ["-l"]))
  = perform_all [CallOutput; CallRun; CallCombinedOutput]
      (MultiCmdMock [Examples.ls_l] Background "ls" (Some ["-l"]))
  /\ perform_all [CallCombinedOutput]
       (MultiCmdMock
          ([Examples.ls_l; Examples.rm_file2] ++ [Examples.echo_hello])
          Background "echo" (Some ["hello"]))
     = perform_all [CallCombinedOutput]
         (MultiCmdMock [Examples.echo_hello] Background "echo"
            (Some ["hello"])).
Proof.
  split.
  - apply (proj1 (X2_expectations_append [Examples.ls_l]
                    [Examples.rm_file2; Examples.ls_l_again]
                    Background "ls" (Some ["-l"])
                    [CallOutput; CallRun; CallCombinedOutput])).
    exists Examples.ls_l. split; [left; reflexivity | split; reflexivity].
  - apply (proj2 (X2_expectations_append
                    [Examples.ls_l; Examples.rm_file2] [Examples.echo_hello]
                    Background "echo" (Some ["hello"])
                    [CallCombinedOutput])).
    intros c [<-|[<-|[]]] [H _]; discriminate H.
Defined.

(** X3: what one result-producing call returns, what any sequence of
    [Run()] and [Output()] calls returns, and the errors any sequence of
    calls returns, are determined by the handle's [Name], [Args], [Stdout]
    and list of expectations: [Ctx], [Dir], [Env], [CheckFunc], the start and
    wait flags, and what earlier calls left in [Stderr], [Err] and the
    last-matched reference have no influence.  (Sequences that go on after a
    [CombinedOutput()] are left out: what they return also depends on the
    arrays behind the slices.) *)
Theorem X3_results_determined_by (m1 m2 : MultiCmdMockCmd.t) :
  MultiCmdMockCmd.Name m1 = MultiCmdMockCmd.Name m2 ->
  MultiCmdMockCmd.Args m1 = MultiCmdMockCmd.Args m2 ->
  MultiCmdMockCmd.Stdout m1 = MultiCmdMockCmd.Stdout m2 ->
  MultiCmdMockCmd.configs m1 = MultiCmdMockCmd.configs m2 ->
  (forall k, snd (perform k m1) = snd (perform k m2))
  /\ (forall ks, Forall (fun k => k <> CallCombinedOutput) ks ->
        perform_all ks m1 = perform_all ks m2)
  /\ (forall ks,
        map error_of (perform_all ks m1) = map error_of (perform_all ks m2)).
Proof.
  intros Hn Ha Ho Hc.
  assert (Hf : find (MultiCmdMockCmd.matches m1) (MultiCmdMockCmd.configs m1)
               = find (MultiCmdMockCmd.matches m2)
                   (MultiCmdMockCmd.configs m2)).
  { rewrite Hc. apply find_matches_ext; assumption. }
  split; [|split].
  - intros k. apply (perform_congr k m1 m2 Hn Ha Ho Hf).
  - intros ks _. apply perform_all_congr; assumption.
  - intros ks. f_equal. apply perform_all_congr; assumption.
Qed.

(** A handle made under a nil context whose directory and environment were
    set and that was started and waited for, against the handle as the
    factory returns it under the background context. *)
Lemma X3_results_determined_by_witness :
  perform_all [CallRun; CallOutput; CallRun]
    (fst (MultiCmdMockCmd.Wait
            (fst (MultiCmdMockCmd.Start
                    (MultiCmdMockCmd.SetEnv
                       (MultiCmdMockCmd.SetDir
                          (MultiCmdMock Examples.configs None "echo"
                             (Some ["hello"]))
                          "/tmp")
                       (Some ["A=1"]))))))
  = perform_all [CallRun; CallOutput; CallRun]
      (MultiCmdMock Examples.configs Background "echo" (Some ["hello"])).
Proof.
  refine (proj1 (proj2 (X3_results_determined_by _ _ _ _ _ _))
            [CallRun; CallOutput; CallRun] _); try reflexivity.
  repeat constructor; discriminate.
Defined.

(** X4: a result-producing call writes only [Stdout], [Stderr], [Err] and
    the last-matched reference: the invocation ([Name], [Args]), [Ctx], [Dir],
    [Env], the start and wait flags and [CheckFunc] are as before. *)
Theorem X4_call_writes_only_outcome (k : call) (m : MultiCmdMockCmd.t) :
  MultiCmdMockCmd.Name (fst (perform k m)) = MultiCmdMockCmd.Name m
  /\ MultiCmdMockCmd.Args (fst (perform k m)) = MultiCmdMockCmd.Args m
  /\ MultiCmdMockCmd.Ctx (fst (perform k m)) = MultiCmdMockCmd.Ctx m
  /\ MockCmd.Dir (MockCmd.data (MultiCmdMockCmd.embedded (fst (perform k m))))
     = MockCmd.Dir (MockCmd.data (MultiCmdMockCmd.embedded m))
  /\ MockCmd.Env (MockCmd.data (MultiCmdMockCmd.embedded (fst (perform k m))))
     = MockCmd.Env (MockCmd.data (MultiCmdMockCmd.embedded m))
  /\ MockCmd.startCalled
       (MockCmd.data (MultiCmdMockCmd.embedded (fst (perform k m))))
     = MockCmd.startCalled (MockCmd.data (MultiCmdMockCmd.embedded m))
  /\ MockCmd.waitCalled
       (MockCmd.data (MultiCmdMockCmd.embedded (fst (perform k m))))
     = MockCmd.waitCalled (MockCmd.data (MultiCmdMockCmd.embedded m))
  /\ MockCmd.CheckFunc (MultiCmdMockCmd.embedded (fst (perform k m)))
     = MockCmd.CheckFunc (MultiCmdMockCmd.embedded m).
Proof.
  rewrite perform_state, matchCommand_find.
  destruct (find _ _); repeat split.
Qed.

(** ** Output kept across a miss *)

(** X6: a scan that finds nothing clears [Stderr] and sets [Err] but leaves
    [Stdout] alone, so on any handle with no matching expectation [Output()]
    and [CombinedOutput()] return the sentinel together with whatever
    [Stdout] held before the call. *)
Theorem X6_miss_keeps_Stdout (m : MultiCmdMockCmd.t) :
  no_match m ->
  snd (MultiCmdMockCmd.Output m)
  = (MultiCmdMockCmd.Stdout m, Some ErrNoMatchingCommand)
  /\ snd (MultiCmdMockCmd.CombinedOutput m)
     = (append (MultiCmdMockCmd.Stdout m) None, Some ErrNoMatchingCommand)
  /\ MultiCmdMockCmd.Stdout (fst (MultiCmdMockCmd.matchCommand m))
     = MultiCmdMockCmd.Stdout m
  /\ MultiCmdMockCmd.Stderr (fst (MultiCmdMockCmd.matchCommand m)) = None.
Proof.
  intros Hno. rewrite Output_eq, CombinedOutput_eq, (matchCommand_miss m Hno).
  repeat split.
Qed.

(** A handle that matched [ls -l] and whose [Name] field was then set to an
    unconfigured command returns the bytes of [ls -l] with the sentinel. *)
Lemma X6_miss_keeps_Stdout_witness :
  snd (MultiCmdMockCmd.Output
         (MultiCmdMockCmd.set_Name
            (fst (MultiCmdMockCmd.Output
                    (MultiCmdMock Examples.configs Background "ls"
                       (Some ["-l"]))))
            "unknown"))
  = (bytes "file1", Some ErrNoMatchingCommand).
Proof.
  refine (proj1 (X6_miss_keeps_Stdout
                   (MultiCmdMockCmd.set_Name
                      (fst (MultiCmdMockCmd.Output
                              (MultiCmdMock Examples.configs Background "ls"
                                 (Some ["-l"]))))
                      "unknown") _)).
  apply no_match_by_scan. reflexivity.
Defined.

(** ** Start and Wait on the matcher *)

(** X5: [Start()] and [Wait()] of the matcher are those of the embedded
    command and do not scan.  On a handle just returned by the factory both
    return nil and record no expectation, whatever the list holds; after a
    result-producing call [Wait()] returns the error that call returned, and
    so does [Start()] when no [CheckFunc] is set. *)
Theorem X5_Start_Wait_do_not_scan :
  (forall cs ctx name arg,
      snd (MultiCmdMockCmd.Start (MultiCmdMock cs ctx name arg)) = None
      /\ snd (MultiCmdMockCmd.Wait (MultiCmdMock cs ctx name arg)) = None
      /\ MultiCmdMockCmd.lastMatchedCmd
           (fst (MultiCmdMockCmd.Start (MultiCmdMock cs ctx name arg)))
         = None
      /\ MultiCmdMockCmd.lastMatchedCmd
           (fst (MultiCmdMockCmd.Wait (MultiCmdMock cs ctx name arg)))
         = None)
  /\ (forall k m,
        snd (MultiCmdMockCmd.Wait (fst (perform k m)))
        = error_of (snd (perform k m)))
  /\ (forall k m,
        MockCmd.CheckFunc (MultiCmdMockCmd.embedded m) = None ->
        snd (MultiCmdMockCmd.Start (fst (perform k m)))
        = error_of (snd (perform k m))).
Proof.
  split; [|split].
  - intros cs ctx name arg. repeat split.
  - intros k m. rewrite perform_error, perform_state. reflexivity.
  - intros k m H. rewrite perform_error, perform_state, matchCommand_find.
    destruct (find _ _); unfold MultiCmdMockCmd.Start, MockCmd.Start;
      cbn; rewrite H; reflexivity.
Qed.

(** [rm file2] is configured with an error: a fresh handle starts with nil,
    and after [Run()] both [Start()] and [Wait()] give that error. *)
Lemma X5_Start_Wait_do_not_scan_witness :
  snd (MultiCmdMockCmd.Start
         (MultiCmdMock Examples.configs Background "rm" (Some ["file2"])))
  = None
  /\ snd (MultiCmdMockCmd.Start
            (fst (perform CallRun
                    (MultiCmdMock Examples.configs Background "rm"
                       (Some ["file2"])))))
     = Some (ErrorValue 1).
Proof.
  split.
  - apply (proj1 X5_Start_Wait_do_not_scan).
  - exact (proj2 (proj2 X5_Start_Wait_do_not_scan) CallRun
             (MultiCmdMock Examples.configs Background "rm" (Some ["file2"]))
             eq_refl).
Defined.

(** ** The single-response double: predicate, flags and factories *)

(** X7: when [CheckFunc] rejects the command, [Run()] returns the
    predicate's error and [Output()] and [CombinedOutput()] return a nil slice
    with it, whatever [Stdout], [Stderr] and [Err] hold; [Start()] returns
    what the predicate returns on the started command; [Wait()] never
    consults the predicate and returns [Err]. *)
Theorem X7_rejecting_predicate (m : MockCmd.t)
    (f : MockCmd.fields -> MockCmd.fields * error) (e e' : errval) :
  MockCmd.CheckFunc m = Some f ->
  snd (f (MockCmd.data m)) = Some e ->
  snd (f (MockCmd.data (MockCmd.set_startCalled m true))) = Some e' ->
  snd (MockCmd.Run m) = Some e
  /\ snd (MockCmd.Output m) = (None, Some e)
  /\ snd (MockCmd.CombinedOutput m) = (None, Some e)
  /\ snd (MockCmd.Start m) = Some e'
  /\ snd (MockCmd.Wait m) = MockCmd.Err (MockCmd.data m).
Proof.
  intros Hf He He'.
  unfold MockCmd.Run, MockCmd.Output, MockCmd.CombinedOutput, MockCmd.Start.
  cbn [MockCmd.CheckFunc MockCmd.set_startCalled MockCmd.set_data].
  rewrite Hf. unfold MockCmd.call_check.
  destruct (f (MockCmd.data m)) as [d1 r1].
  destruct (f (MockCmd.data (MockCmd.set_startCalled m true))) as [d2 r2].
  simpl in He, He'. subst r1 r2. repeat split.
Qed.

(** The predicate of the documentation against a command of another name:
    the fixed output is withheld. *)
Lemma X7_rejecting_predicate_witness :
  snd (MockCmd.Output
         (MockCmd.MakeMockCmdWithOutput "mocked output"
            (Some (inspect (expect_name "expected-command" (ErrorValue 7))))
            Background "other-command" (Some ["-arg1"])))
  = (None, Some (ErrorValue 7)).
Proof.
  exact (proj1 (proj2 (X7_rejecting_predicate
           (MockCmd.MakeMockCmdWithOutput "mocked output"
              (Some (inspect (expect_name "expected-command" (ErrorValue 7))))
              Background "other-command" (Some ["-arg1"]))
           (inspect (expect_name "expected-command" (ErrorValue 7)))
           (ErrorValue 7) (ErrorValue 7) eq_refl eq_refl eq_refl))).
Defined.

(** X8: with no predicate, or one that only inspects, [Run()], [Output()]
    and [CombinedOutput()] set neither the start flag nor the wait flag;
    [Start()] sets the start flag and leaves the wait flag, [Wait()] sets the
    wait flag and leaves the start flag. *)
Theorem X8_flags_set_only_by_Start_and_Wait (m : MockCmd.t) :
  inspecting m ->
  (MockCmd.startCalled (MockCmd.data (fst (MockCmd.Run m)))
   = MockCmd.startCalled (MockCmd.data m)
   /\ MockCmd.waitCalled (MockCmd.data (fst (MockCmd.Run m)))
      = MockCmd.waitCalled (MockCmd.data m))
  /\ (MockCmd.startCalled (MockCmd.data (fst (MockCmd.Output m)))
      = MockCmd.startCalled (MockCmd.data m)
      /\ MockCmd.waitCalled (MockCmd.data (fst (MockCmd.Output m)))
         = MockCmd.waitCalled (MockCmd.data m))
  /\ (MockCmd.startCalled (MockCmd.data (fst (MockCmd.CombinedOutput m)))
      = MockCmd.startCalled (MockCmd.data m)
      /\ MockCmd.waitCalled (MockCmd.data (fst (MockCmd.CombinedOutput m)))
         = MockCmd.waitCalled (MockCmd.data m))
  /\ (MockCmd.startCalled (MockCmd.data (fst (MockCmd.Start m))) = true
      /\ MockCmd.waitCalled (MockCmd.data (fst (MockCmd.Start m)))
         = MockCmd.waitCalled (MockCmd.data m))
  /\ (MockCmd.waitCalled (MockCmd.data (fst (MockCmd.Wait m))) = true
      /\ MockCmd.startCalled (MockCmd.data (fst (MockCmd.Wait m)))
         = MockCmd.startCalled (MockCmd.data m)).
Proof.
  destruct m as [d chk]. intros [H|[p H]]; simpl in H; subst chk.
  - repeat split.
  - unfold MockCmd.Run, MockCmd.Output, MockCmd.CombinedOutput, MockCmd.Start,
      MockCmd.call_check, inspect.
    cbn [MockCmd.CheckFunc MockCmd.set_startCalled MockCmd.set_data
           MockCmd.data].
    repeat split; destruct (p _); reflexivity.
Qed.

(** After [Output()] on a command made by [MakeMockCmdWithOutput] neither
    flag is set. *)
Lemma X8_flags_set_only_by_Start_and_Wait_witness :
  MockCmd.startCalled
    (MockCmd.data
       (fst (MockCmd.Output
               (MockCmd.MakeMockCmdWithOutput "mocked output"
                  (Some (inspect (expect_name "expected-command"
                                    (ErrorValue 7))))
                  Background "expected-command" (Some ["-arg1"; "-arg2"])))))
  = false
  /\ MockCmd.waitCalled
       (MockCmd.data
          (fst (MockCmd.Output
                  (MockCmd.MakeMockCmdWithOutput "mocked output"
                     (Some (inspect (expect_name "expected-command"
                                       (ErrorValue 7))))
                     Background "expected-command"
                     (Some ["-arg1"; "-arg2"])))))
     = false.
Proof.
  exact (proj1 (proj2 (X8_flags_set_only_by_Start_and_Wait
           (MockCmd.MakeMockCmdWithOutput "mocked output"
              (Some (inspect (expect_name "expected-command"
                                (ErrorValue 7))))
              Background "expected-command" (Some ["-arg1"; "-arg2"]))
           (or_intror (ex_intro _ _ eq_refl))))).
Defined.

(** X9: a double made with no predicate answers every invocation alike:
    [MakeMockCmdWithOutput] gives the fixed output and a nil error,
    [MakeMockCmdWithOutputGenericError] gives a nil slice and
    [exec.ErrNotFound], and [MakeMockCmdWithOutputSpecificError] gives the
    fixed output together with the given error. *)
Theorem X9_fixed_response (out : string) (e : error) (ctx : Context)
    (name : string) (arg : slice string) :
  (snd (MockCmd.Run (MockCmd.MakeMockCmdWithOutput out None ctx name arg))
   = None
   /\ snd (MockCmd.Output
             (MockCmd.MakeMockCmdWithOutput out None ctx name arg))
      = (bytes out, None)
   /\ snd (MockCmd.CombinedOutput
             (MockCmd.MakeMockCmdWithOutput out None ctx name arg))
      = (bytes out, None))
  /\ (snd (MockCmd.Run
             (MockCmd.MakeMockCmdWithOutputGenericError None ctx name arg))
      = Some ErrNotFound
      /\ snd (MockCmd.Output
                (MockCmd.MakeMockCmdWithOutputGenericError None ctx name arg))
         = (None, Some ErrNotFound)
      /\ snd (MockCmd.CombinedOutput
                (MockCmd.MakeMockCmdWithOutputGenericError None ctx name arg))
         = (None, Some ErrNotFound))
  /\ (snd (MockCmd.Run
             (MockCmd.MakeMockCmdWithOutputSpecificError out e None ctx name
                arg))
      = e
      /\ snd (MockCmd.Output
                (MockCmd.MakeMockCmdWithOutputSpecificError out e None ctx
                   name arg))
         = (bytes out, e)
      /\ snd (MockCmd.CombinedOutput
                (MockCmd.MakeMockCmdWithOutputSpecificError out e None ctx
                   name arg))
         = (bytes out, e)).
Proof.
  unfold MockCmd.CombinedOutput, bytes; simpl; rewrite app_nil_r.
  repeat split.
Qed.

(** X10: a double made by [MakeMockCmdWithOutput] with an inspecting
    predicate records the context, name and arguments of the invocation and
    the fixed output, and [Output()] is decided by the predicate on that
    record: its error with a nil slice, or the fixed output with a nil
    error.  [MakeMockCmd] hands back the prepared command and drops the
    invocation. *)
Theorem X10_predicate_sees_invocation (out : string)
    (p : MockCmd.fields -> error) (ctx : Context) (name : string)
    (arg : slice string) (c0 : MockCmd.t) :
  MockCmd.Ctx (MockCmd.data
                 (MockCmd.MakeMockCmdWithOutput out (Some (inspect p)) ctx
                    name arg)) = ctx
  /\ MockCmd.Name (MockCmd.data
                     (MockCmd.MakeMockCmdWithOutput out (Some (inspect p))
                        ctx name arg)) = name
  /\ MockCmd.Args (MockCmd.data
                     (MockCmd.MakeMockCmdWithOutput out (Some (inspect p))
                        ctx name arg)) = arg
  /\ MockCmd.Stdout (MockCmd.data
                       (MockCmd.MakeMockCmdWithOutput out (Some (inspect p))
                          ctx name arg)) = bytes out
  /\ snd (MockCmd.Output
            (MockCmd.MakeMockCmdWithOutput out (Some (inspect p)) ctx name
               arg))
     = match p (MockCmd.data
                  (MockCmd.MakeMockCmdWithOutput out (Some (inspect p)) ctx
                     name arg)) with
       | Some e => (None, Some e)
       | None => (bytes out, None)
       end
  /\ MockCmd.Name (MockCmd.data (MockCmd.MakeMockCmd c0 ctx name arg))
     = MockCmd.Name (MockCmd.data c0).
Proof.
  repeat split.
  unfold MockCmd.Output, MockCmd.call_check, inspect.
  cbn [MockCmd.CheckFunc MockCmd.MakeMockCmdWithOutput].
  destruct (p _); reflexivity.
Qed.

(** ** Mixing the three operations *)

Lemma perform_after (k k' : call) (m : MultiCmdMockCmd.t) :
  snd (perform k' (fst (perform k m))) = snd (perform k' m).
Proof.
  rewrite perform_state.
  destruct k'; unfold perform;
    rewrite ?Run_eq, ?Output_eq, ?CombinedOutput_eq; cbn [fst snd];
    rewrite matchCommand_idempotent; reflexivity.
Qed.

Lemma perform_all_first (ks : list call) (m : MultiCmdMockCmd.t) :
  perform_all ks m = map (fun k => snd (perform k m)) ks.
Proof.
  revert m. induction ks as [|k ks IH]; intros m; [reflexivity|].
  simpl. specialize (IH (fst (perform k m))).
  destruct (perform k m) as [m' r] eqn:E. cbn [fst snd] in *.
  rewrite IH. f_equal. apply map_ext. intros k'.
  replace m' with (fst (perform k m)) by (rewrite E; reflexivity).
  apply perform_after.
Qed.

(** X12: in any sequence of [Run()] and [Output()] calls on one handle,
    mixed at will, every call returns what it would return as the first call;
    and in any sequence of result-producing calls, [CombinedOutput()]
    included, every call returns the error it would return as the first
    call. *)
Theorem X12_mixed_calls (ks : list call) (m : MultiCmdMockCmd.t) :
  (Forall (fun k => k <> CallCombinedOutput) ks ->
     perform_all ks m = map (fun k => snd (perform k m)) ks)
  /\ map error_of (perform_all ks m)
     = map (fun k => error_of (snd (perform k m))) ks.
Proof.
  split.
  - intros _. apply perform_all_first.
  - rewrite perform_all_first, map_map. reflexivity.
Qed.

(** [rm file2], asked for its output between two runs. *)
Lemma X12_mixed_calls_witness :
  perform_all [CallRun; CallOutput; CallRun]
    (MultiCmdMock Examples.configs Background "rm" (Some ["file2"]))
  = [RunResult (Some (ErrorValue 1));
     OutputResult (bytes "partial") (Some (ErrorValue 1));
     RunResult (Some (ErrorValue 1))].
Proof.
  refine (proj1 (X12_mixed_calls [CallRun; CallOutput; CallRun]
                   (MultiCmdMock Examples.configs Background "rm"
                      (Some ["file2"]))) _).
  repeat constructor; discriminate.
Defined.


(** * The arrays behind the byte slices *)

(** ** Reading and writing windows *)

Lemma nth_error_window (l : list byte) (k n p : nat) :
  nth_error (firstn n (skipn k l)) p
  = if (p <? n)%nat then nth_error l (k + p) else None.
Proof.
  rewrite nth_error_firstn, nth_error_skipn. reflexivity.
Qed.

Lemma nth_error_overwrite (pos : nat) (bs a : list byte) (p : nat) :
  pos <= List.length a ->
  nth_error (Mem.overwrite pos bs a) p
  = if (p <? pos)%nat then nth_error a p
    else if (p <? pos + List.length bs)%nat then nth_error bs (p - pos)
         else nth_error a p.
Proof.
  intros Hpos. unfold Mem.overwrite.
  rewrite nth_error_app, length_firstn, (Nat.min_l _ _ Hpos).
  destruct (p <? pos)%nat eqn:E1.
  - rewrite nth_error_firstn, E1. reflexivity.
  - apply Nat.ltb_ge in E1. rewrite nth_error_app.
    destruct (p - pos <? List.length bs)%nat eqn:E2.
    + apply Nat.ltb_lt in E2.
      assert (E3 : (p <? pos + List.length bs)%nat = true)
        by (apply Nat.ltb_lt; lia).
      rewrite E3. reflexivity.
    + apply Nat.ltb_ge in E2.
      assert (E3 : (p <? pos + List.length bs)%nat = false)
        by (apply Nat.ltb_ge; lia).
      rewrite E3, nth_error_skipn. f_equal. lia.
Qed.

Lemma overwrite_length (pos : nat) (bs a : list byte) :
  pos + List.length bs <= List.length a ->
  List.length (Mem.overwrite pos bs a) = List.length a.
Proof.
  intros H. unfold Mem.overwrite.
  rewrite !length_app, length_firstn, length_skipn. lia.
Qed.

Lemma update_length (h : Mem.store) (i : nat) f :
  List.length (Mem.update h i f) = List.length h.
Proof.
  revert i; induction h as [|a h IH]; intros [|i]; simpl; auto.
Qed.

Lemma nth_update_same (h : Mem.store) (i : nat) f :
  i < List.length h -> nth i (Mem.update h i f) [] = f (nth i h []).
Proof.
  revert i; induction h as [|a h IH]; intros [|i] H; simpl in *;
    try lia; [reflexivity|]. apply IH. lia.
Qed.

Lemma nth_update_other (h : Mem.store) (i j : nat) f :
  i <> j -> nth j (Mem.update h i f) [] = nth j h [].
Proof.
  revert i j; induction h as [|a h IH]; intros [|i] [|j] H; simpl;
    try reflexivity; try congruence. apply IH. congruence.
Qed.

(** The slice that an in-place [append] returns reads the old elements
    followed by the new ones. *)
Lemma read_extended (a tb : list byte) (o l : nat) :
  o + l + List.length tb <= List.length a ->
  firstn (l + List.length tb) (skipn o (Mem.overwrite (o + l) tb a))
  = firstn l (skipn o a) ++ tb.
Proof.
  intros H. apply nth_error_ext. intros p.
  rewrite nth_error_window, nth_error_overwrite by lia.
  rewrite nth_error_app, length_firstn, length_skipn.
  replace (Nat.min l (List.length a - o)) with l by lia.
  rewrite nth_error_window.
  destruct (p <? l)%nat eqn:E1.
  - apply Nat.ltb_lt in E1.
    assert (E2 : (p <? l + List.length tb)%nat = true)
      by (apply Nat.ltb_lt; lia).
    assert (E3 : (o + p <? o + l)%nat = true) by (apply Nat.ltb_lt; lia).
    rewrite E2, E3. reflexivity.
  - apply Nat.ltb_ge in E1.
    assert (E3 : (o + p <? o + l)%nat = false) by (apply Nat.ltb_ge; lia).
    rewrite E3.
    destruct (p <? l + List.length tb)%nat eqn:E2.
    + apply Nat.ltb_lt in E2.
      assert (E4 : (o + p <? o + l + List.length tb)%nat = true)
        by (apply Nat.ltb_lt; lia).
      rewrite E4. f_equal. lia.
    + apply Nat.ltb_ge in E2. symmetry. apply nth_error_None. lia.
Qed.

(** A window that does not meet the bytes written reads as before. *)
Lemma read_untouched (a bs : list byte) (pos o l : nat) :
  pos + List.length bs <= List.length a ->
  o + l <= pos \/ pos + List.length bs <= o ->
  firstn l (skipn o (Mem.overwrite pos bs a)) = firstn l (skipn o a).
Proof.
  intros Hfit Hapart. apply nth_error_ext. intros p.
  rewrite !nth_error_window, nth_error_overwrite by lia.
  destruct (p <? l)%nat eqn:E1; [|reflexivity].
  apply Nat.ltb_lt in E1.
  destruct Hapart as [Hb|Ha].
  - assert (E2 : (o + p <? pos)%nat = true) by (apply Nat.ltb_lt; lia).
    rewrite E2. reflexivity.
  - assert (E2 : (o + p <? pos)%nat = false) by (apply Nat.ltb_ge; lia).
    assert (E3 : (o + p <? pos + List.length bs)%nat = false)
      by (apply Nat.ltb_ge; lia).
    rewrite E2, E3. reflexivity.
Qed.

Lemma read_alloc (h : Mem.store) (bs : list byte) (u : Mem.byteslice) :
  Mem.within h u -> Mem.read (fst (Mem.alloc h bs)) u = Mem.read h u.
Proof.
  destruct u as [v|]; [|reflexivity]. intros (Hv & _). simpl.
  rewrite app_nth1 by exact Hv. reflexivity.
Qed.

Lemma read_alloc_new (h : Mem.store) (bs : list byte) :
  Mem.read (fst (Mem.alloc h bs)) (Some (snd (Mem.alloc h bs))) = bs.
Proof.
  simpl. rewrite nth_middle. apply firstn_all.
Qed.

Lemma append_contents (h : Mem.store) (s t : Mem.byteslice) :
  Mem.within h s ->
  Mem.content (fst (Mem.append h s t)) (snd (Mem.append h s t))
  = Go.append (Mem.content h s) (Mem.content h t).
Proof.
  intros Hs. unfold Mem.append.
  assert (Et : elems (Mem.content h t) = Mem.read h t)
    by (destruct t; reflexivity).
  destruct s as [w|].
  - destruct Hs as (Harr & Hcap & Hlen).
    unfold Go.append. cbn [Mem.content]. rewrite Et.
    destruct (Mem.len w + List.length (Mem.read h t) <=? Mem.cap w)%nat
      eqn:E.
    + apply Nat.leb_le in E. cbn [fst snd Mem.content Mem.read Mem.arr
        Mem.off Mem.len]. f_equal.
      rewrite nth_update_same by exact Harr.
      apply read_extended. lia.
    + change (Some (Mem.read (fst (Mem.alloc h (Mem.read h (Some w)
                                                  ++ Mem.read h t)))
                      (Some (snd (Mem.alloc h (Mem.read h (Some w)
                                                 ++ Mem.read h t)))))
              = Some (Mem.read h (Some w) ++ Mem.read h t)).
      rewrite read_alloc_new. reflexivity.
  - unfold Go.append. cbn [Mem.content]. rewrite Et.
    destruct (Mem.read h t) as [|b tb] eqn:E; [reflexivity|].
    change (Some (Mem.read (fst (Mem.alloc h (b :: tb)))
                    (Some (snd (Mem.alloc h (b :: tb)))))
            = Some (b :: tb)).
    rewrite read_alloc_new. reflexivity.
Qed.

Lemma append_frame (h : Mem.store) (s t u : Mem.byteslice) :
  Mem.within h s -> Mem.within h u ->
  Mem.apart s (List.length (Mem.read h t)) u ->
  Mem.read (fst (Mem.append h s t)) u = Mem.read h u.
Proof.
  intros Hs Hu Hap. unfold Mem.append.
  destruct s as [w|].
  - destruct Hs as (Harr & Hcap & Hlen).
    destruct (Mem.len w + List.length (Mem.read h t) <=? Mem.cap w)%nat
      eqn:E.
    + apply Nat.leb_le in E. cbn [fst].
      destruct u as [v|]; [|reflexivity]. cbn [Mem.read].
      destruct (Nat.eq_dec (Mem.arr v) (Mem.arr w)) as [Ea|Ea].
      * rewrite Ea, nth_update_same by exact Harr.
        apply read_untouched; [lia|].
        destruct Hap as [Hap|[Hap|Hap]]; [congruence | left; lia | right; lia].
      * rewrite nth_update_other by congruence. reflexivity.
    + apply (read_alloc h _ u Hu).
  - destruct (Mem.read h t) as [|b tb]; [reflexivity|].
    apply (read_alloc h _ u Hu).
Qed.

Lemma append_within (h : Mem.store) (s t u : Mem.byteslice) :
  Mem.within h s -> Mem.within h u ->
  Mem.within (fst (Mem.append h s t)) u.
Proof.
  intros Hs Hu. destruct u as [v|]; [|exact I].
  destruct Hu as (Hv & Hvc & Hvl). unfold Mem.append.
  destruct s as [w|].
  - destruct Hs as (Harr & Hcap & Hlen).
    destruct (Mem.len w + List.length (Mem.read h t) <=? Mem.cap w)%nat
      eqn:E.
    + apply Nat.leb_le in E. cbn [fst Mem.within].
      rewrite update_length. repeat split; try assumption.
      destruct (Nat.eq_dec (Mem.arr v) (Mem.arr w)) as [Ea|Ea].
      * rewrite Ea, nth_update_same by exact Harr.
        rewrite overwrite_length by lia. rewrite <- Ea. exact Hvc.
      * rewrite nth_update_other by congruence. exact Hvc.
    + cbn [fst Mem.within Mem.alloc]. rewrite length_app, app_nth1 by exact Hv.
      repeat split; try assumption. simpl. lia.
  - destruct (Mem.read h t) as [|b tb]; [repeat split; assumption|].
    cbn [fst Mem.within Mem.alloc]. rewrite length_app, app_nth1 by exact Hv.
    repeat split; try assumption. simpl. lia.
Qed.

(** ** The scan over slice headers *)

Lemma Mem_range_configs_find (m : Mem.MultiCmdMockCmd.t) cs :
  Mem.MultiCmdMockCmd.range_configs m cs
  = option_map (Mem.adopt m) (find (Mem.MultiCmdMockCmd.matches m) cs).
Proof.
  induction cs as [|c cs IH]; [reflexivity|]. simpl.
  destruct (Mem.MultiCmdMockCmd.matches m c); [reflexivity | exact IH].
Qed.

Lemma Mem_matchCommand_find (m : Mem.MultiCmdMockCmd.t) :
  Mem.MultiCmdMockCmd.matchCommand m
  = (match find (Mem.MultiCmdMockCmd.matches m)
             (Mem.MultiCmdMockCmd.configs m) with
     | Some c =>
         Mem.adopt (Mem.MultiCmdMockCmd.set_lastMatchedCmd m None) c
     | None =>
         Mem.unmatched_state (Mem.MultiCmdMockCmd.set_lastMatchedCmd m None)
     end, None).
Proof.
  unfold Mem.MultiCmdMockCmd.matchCommand. rewrite Mem_range_configs_find.
  change (find
            (Mem.MultiCmdMockCmd.matches
               (Mem.MultiCmdMockCmd.set_lastMatchedCmd m None))
            (Mem.MultiCmdMockCmd.configs
               (Mem.MultiCmdMockCmd.set_lastMatchedCmd m None)))
    with (find (Mem.MultiCmdMockCmd.matches m)
            (Mem.MultiCmdMockCmd.configs m)).
  destruct (find _ _); reflexivity.
Qed.

Lemma Mem_matchCommand_eta (m : Mem.MultiCmdMockCmd.t) :
  Mem.MultiCmdMockCmd.matchCommand m
  = (fst (Mem.MultiCmdMockCmd.matchCommand m), None).
Proof.
  rewrite Mem_matchCommand_find. reflexivity.
Qed.

Lemma Mem_matchCommand_settled (m : Mem.MultiCmdMockCmd.t) :
  Mem.MultiCmdMockCmd.matchCommand (fst (Mem.MultiCmdMockCmd.matchCommand m))
  = Mem.MultiCmdMockCmd.matchCommand m.
Proof.
  rewrite (Mem_matchCommand_find m). cbn [fst].
  destruct (find (Mem.MultiCmdMockCmd.matches m)
              (Mem.MultiCmdMockCmd.configs m)) as [c|] eqn:E.
  - rewrite Mem_matchCommand_find.
    change (find
              (Mem.MultiCmdMockCmd.matches
                 (Mem.adopt (Mem.MultiCmdMockCmd.set_lastMatchedCmd m None) c))
              (Mem.MultiCmdMockCmd.configs
                 (Mem.adopt (Mem.MultiCmdMockCmd.set_lastMatchedCmd m None)
                    c)))
      with (find (Mem.MultiCmdMockCmd.matches m)
              (Mem.MultiCmdMockCmd.configs m)).
    rewrite E. reflexivity.
  - rewrite Mem_matchCommand_find.
    change (find
              (Mem.MultiCmdMockCmd.matches
                 (Mem.unmatched_state
                    (Mem.MultiCmdMockCmd.set_lastMatchedCmd m None)))
              (Mem.MultiCmdMockCmd.configs
                 (Mem.unmatched_state
                    (Mem.MultiCmdMockCmd.set_lastMatchedCmd m None))))
      with (find (Mem.MultiCmdMockCmd.matches m)
              (Mem.MultiCmdMockCmd.configs m)).
    rewrite E. reflexivity.
Qed.

Lemma Mem_CombinedOutput_eq (h : Mem.store) (m : Mem.MultiCmdMockCmd.t) :
  Mem.MultiCmdMockCmd.CombinedOutput h m
  = (fst (Mem.append h
            (Mem.MultiCmdMockCmd.Stdout
               (fst (Mem.MultiCmdMockCmd.matchCommand m)))
            (Mem.MultiCmdMockCmd.Stderr
               (fst (Mem.MultiCmdMockCmd.matchCommand m)))),
     fst (Mem.MultiCmdMockCmd.matchCommand m),
     (snd (Mem.append h
             (Mem.MultiCmdMockCmd.Stdout
                (fst (Mem.MultiCmdMockCmd.matchCommand m)))
             (Mem.MultiCmdMockCmd.Stderr
                (fst (Mem.MultiCmdMockCmd.matchCommand m)))),
      Mem.MultiCmdMockCmd.Err (fst (Mem.MultiCmdMockCmd.matchCommand m)))).
Proof.
  unfold Mem.MultiCmdMockCmd.CombinedOutput.
  rewrite (Mem_matchCommand_eta m). cbn [fst].
  destruct (Mem.append _ _ _). reflexivity.
Qed.

Lemma read_content (h : Mem.store) (s : Mem.byteslice) :
  Mem.read h s = elems (Mem.content h s).
Proof.
  destruct s; reflexivity.
Qed.

(** ** One call of CombinedOutput over arrays *)

(** X13: whatever arrays the slices share, the slice that one
    [CombinedOutput()] call returns, read when the call returns, is the
    [append] of the contents that [Stdout] and [Stderr] of the handle had
    after the scan and before the write: the stdout bytes, then the stderr
    bytes. *)
Theorem X13_CombinedOutput_contents (h : Mem.store)
    (m : Mem.MultiCmdMockCmd.t) :
  Mem.within h
    (Mem.MultiCmdMockCmd.Stdout (fst (Mem.MultiCmdMockCmd.matchCommand m))) ->
  Mem.content
    (Mem.store_of (Mem.MultiCmdMockCmd.CombinedOutput h m))
    (fst (Mem.result_of (Mem.MultiCmdMockCmd.CombinedOutput h m)))
  = Go.append
      (Mem.content h
         (Mem.MultiCmdMockCmd.Stdout
            (fst (Mem.MultiCmdMockCmd.matchCommand m))))
      (Mem.content h
         (Mem.MultiCmdMockCmd.Stderr
            (fst (Mem.MultiCmdMockCmd.matchCommand m))))
  /\ snd (Mem.result_of (Mem.MultiCmdMockCmd.CombinedOutput h m))
     = Mem.MultiCmdMockCmd.Err (fst (Mem.MultiCmdMockCmd.matchCommand m)).
Proof.
  intros Hw. rewrite Mem_CombinedOutput_eq.
  unfold Mem.store_of, Mem.result_of. cbn [fst snd].
  split; [apply append_contents; exact Hw | reflexivity].
Qed.

(** With [Stdout: buf[:5]] and [Stderr: buf[3:8]] over [0123456789] the one
    call returns [01234] then [34567]. *)
Lemma X13_CombinedOutput_contents_witness :
  Mem.content
    (Mem.store_of
       (Mem.MultiCmdMockCmd.CombinedOutput Shared.store0
          (Mem.MultiCmdMock [Shared.overlapping] Background "a" None)))
    (fst (Mem.result_of
            (Mem.MultiCmdMockCmd.CombinedOutput Shared.store0
               (Mem.MultiCmdMock [Shared.overlapping] Background "a" None))))
  = Some (list_byte_of_string "01234" ++ list_byte_of_string "34567").
Proof.
  refine (proj1 (X13_CombinedOutput_contents Shared.store0
                   (Mem.MultiCmdMock [Shared.overlapping] Background "a" None)
                   _)).
  cbn. lia.
Defined.

(** ** What CombinedOutput writes *)

Lemma Mem_matchCommand_configs (m : Mem.MultiCmdMockCmd.t) :
  Mem.MultiCmdMockCmd.configs (fst (Mem.MultiCmdMockCmd.matchCommand m))
  = Mem.MultiCmdMockCmd.configs m.
Proof.
  rewrite Mem_matchCommand_find. cbn [fst].
  destruct (find _ _); reflexivity.
Qed.

(** X14: [Run()] and [Output()] write no array, and no operation assigns to
    the list of expectations.  [CombinedOutput()] writes at most the bytes
    that lie behind the elements of the handle's [Stdout] in its array, as
    many as [Stderr] has: every slice whose window does not meet them reads
    after the call as it read before. *)
Theorem X14_CombinedOutput_writes_behind_Stdout (h : Mem.store)
    (m : Mem.MultiCmdMockCmd.t) (u : Mem.byteslice) :
  Mem.within h
    (Mem.MultiCmdMockCmd.Stdout (fst (Mem.MultiCmdMockCmd.matchCommand m))) ->
  Mem.within h u ->
  Mem.apart
    (Mem.MultiCmdMockCmd.Stdout (fst (Mem.MultiCmdMockCmd.matchCommand m)))
    (List.length
       (Mem.read h
          (Mem.MultiCmdMockCmd.Stderr
             (fst (Mem.MultiCmdMockCmd.matchCommand m)))))
    u ->
  Mem.read (Mem.store_of (Mem.MultiCmdMockCmd.CombinedOutput h m)) u
  = Mem.read h u
  /\ Mem.store_of (Mem.MultiCmdMockCmd.Run h m) = h
  /\ Mem.store_of (Mem.MultiCmdMockCmd.Output h m) = h
  /\ Mem.MultiCmdMockCmd.configs
       (Mem.state_of (Mem.MultiCmdMockCmd.Run h m))
     = Mem.MultiCmdMockCmd.configs m
  /\ Mem.MultiCmdMockCmd.configs
       (Mem.state_of (Mem.MultiCmdMockCmd.Output h m))
     = Mem.MultiCmdMockCmd.configs m
  /\ Mem.MultiCmdMockCmd.configs
       (Mem.state_of (Mem.MultiCmdMockCmd.CombinedOutput h m))
     = Mem.MultiCmdMockCmd.configs m.
Proof.
  intros Hs Hu Hap. rewrite Mem_CombinedOutput_eq.
  unfold Mem.MultiCmdMockCmd.Run, Mem.MultiCmdMockCmd.Output.
  rewrite (Mem_matchCommand_eta m).
  unfold Mem.store_of, Mem.state_of. cbn [fst snd].
  rewrite Mem_matchCommand_configs.
  split; [apply append_frame; assumption | repeat split].
Qed.

(** The stdout of [a] itself is not written by [CombinedOutput()] for [a],
    although the stdout of [b] is. *)
Lemma X14_CombinedOutput_writes_behind_Stdout_witness :
  Mem.read
    (Mem.store_of
       (Mem.MultiCmdMockCmd.CombinedOutput Shared.store1
          (Mem.MultiCmdMock [Shared.first_half; Shared.second_half]
             Background "a" None)))
    (Mem.CommandConfig.Stdout Shared.first_half)
  = list_byte_of_string "01234".
Proof.
  refine (proj1 (X14_CombinedOutput_writes_behind_Stdout Shared.store1
                   (Mem.MultiCmdMock [Shared.first_half; Shared.second_half]
                      Background "a" None)
                   (Mem.CommandConfig.Stdout Shared.first_half) _ _ _));
    cbn; lia.
Defined.

(** ** Repeating CombinedOutput *)

Lemma CombinedOutput_calls_settled (n : nat) (h : Mem.store)
    (m : Mem.MultiCmdMockCmd.t) :
  Mem.CombinedOutput_calls n h m
  = Mem.CombinedOutput_calls n h (fst (Mem.MultiCmdMockCmd.matchCommand m)).
Proof.
  destruct n as [|n]; [reflexivity|]. cbn [Mem.CombinedOutput_calls].
  rewrite (Mem_CombinedOutput_eq h (fst (Mem.MultiCmdMockCmd.matchCommand m))).
  rewrite (Mem_CombinedOutput_eq h m).
  rewrite Mem_matchCommand_settled. reflexivity.
Qed.

Lemma apart_self (s : Mem.byteslice) (n : nat) : Mem.apart s n s.
Proof.
  destruct s as [w|]; [|exact I]. right. left. lia.
Qed.

Lemma CombinedOutput_calls_apart (n : nat) :
  forall (h : Mem.store) (m : Mem.MultiCmdMockCmd.t),
    Mem.within h
      (Mem.MultiCmdMockCmd.Stdout
         (fst (Mem.MultiCmdMockCmd.matchCommand m))) ->
    Mem.within h
      (Mem.MultiCmdMockCmd.Stderr
         (fst (Mem.MultiCmdMockCmd.matchCommand m))) ->
    Mem.apart
      (Mem.MultiCmdMockCmd.Stdout (fst (Mem.MultiCmdMockCmd.matchCommand m)))
      (List.length
         (Mem.read h
            (Mem.MultiCmdMockCmd.Stderr
               (fst (Mem.MultiCmdMockCmd.matchCommand m)))))
      (Mem.MultiCmdMockCmd.Stderr
         (fst (Mem.MultiCmdMockCmd.matchCommand m))) ->
    Mem.CombinedOutput_calls n h m
    = repeat
        (Mem.read h
           (Mem.MultiCmdMockCmd.Stdout
              (fst (Mem.MultiCmdMockCmd.matchCommand m)))
         ++ Mem.read h
              (Mem.MultiCmdMockCmd.Stderr
                 (fst (Mem.MultiCmdMockCmd.matchCommand m))),
         Mem.MultiCmdMockCmd.Err (fst (Mem.MultiCmdMockCmd.matchCommand m)))
        n.
Proof.
  induction n as [|n IH]; intros h m Hs He Hap; [reflexivity|].
  cbn [Mem.CombinedOutput_calls repeat].
  rewrite (Mem_CombinedOutput_eq h m).
  unfold Mem.bytes_read, Mem.store_of, Mem.state_of, Mem.result_of.
  cbn [fst snd].
  set (m' := fst (Mem.MultiCmdMockCmd.matchCommand m)) in *.
  set (S := Mem.MultiCmdMockCmd.Stdout m') in *.
  set (E := Mem.MultiCmdMockCmd.Stderr m') in *.
  assert (Hm' : fst (Mem.MultiCmdMockCmd.matchCommand m') = m').
  { unfold m'. rewrite Mem_matchCommand_settled. reflexivity. }
  assert (HS : Mem.read (fst (Mem.append h S E)) S = Mem.read h S).
  { apply append_frame; [exact Hs | exact Hs | apply apart_self]. }
  assert (HE : Mem.read (fst (Mem.append h S E)) E = Mem.read h E).
  { apply append_frame; assumption. }
  f_equal.
  - f_equal. rewrite read_content, (append_contents h S E Hs), elems_append.
    rewrite <- !read_content. reflexivity.
  - rewrite (IH (fst (Mem.append h S E)) m'); rewrite Hm'; fold S E.
    + rewrite HS, HE. reflexivity.
    + apply append_within; assumption.
    + apply append_within; assumption.
    + rewrite HE. exact Hap.
Qed.

(** X16: repeated [CombinedOutput()] calls do return one and the same
    result, the stdout bytes then the stderr bytes, whenever the window of the
    handle's [Stderr] after the scan does not meet the bytes that lie behind
    its [Stdout], for instance when the two are slices of different
    arrays. *)
Theorem X16_CombinedOutput_repeats_when_apart (n : nat) (h : Mem.store)
    (m : Mem.MultiCmdMockCmd.t) :
  Mem.within h
    (Mem.MultiCmdMockCmd.Stdout (fst (Mem.MultiCmdMockCmd.matchCommand m))) ->
  Mem.within h
    (Mem.MultiCmdMockCmd.Stderr (fst (Mem.MultiCmdMockCmd.matchCommand m))) ->
  Mem.apart
    (Mem.MultiCmdMockCmd.Stdout (fst (Mem.MultiCmdMockCmd.matchCommand m)))
    (List.length
       (Mem.read h
          (Mem.MultiCmdMockCmd.Stderr
             (fst (Mem.MultiCmdMockCmd.matchCommand m)))))
    (Mem.MultiCmdMockCmd.Stderr (fst (Mem.MultiCmdMockCmd.matchCommand m))) ->
  Mem.CombinedOutput_calls n h m
  = repeat
      (Mem.read h
         (Mem.MultiCmdMockCmd.Stdout
            (fst (Mem.MultiCmdMockCmd.matchCommand m)))
       ++ Mem.read h
            (Mem.MultiCmdMockCmd.Stderr
               (fst (Mem.MultiCmdMockCmd.matchCommand m))),
       Mem.MultiCmdMockCmd.Err (fst (Mem.MultiCmdMockCmd.matchCommand m)))
      n.
Proof.
  apply CombinedOutput_calls_apart.
Qed.

(** [Stdout: buf[0:5]] with spare capacity and [Stderr] in an array of its
    own: three calls, three times [01234ERR]. *)
Lemma X16_CombinedOutput_repeats_when_apart_witness :
  Mem.CombinedOutput_calls 3 Shared.store1
    (Mem.MultiCmdMock [Shared.first_half; Shared.second_half] Background "a"
       None)
  = repeat (list_byte_of_string "01234ERR", None) 3.
Proof.
  refine (X16_CombinedOutput_repeats_when_apart 3 Shared.store1
            (Mem.MultiCmdMock [Shared.first_half; Shared.second_half]
               Background "a" None) _ _ _); cbn; lia.
Defined.

(** The same write in the single-response double: with [Stdout: buf[:5]] and
    [Stderr: buf[3:8]] over [0123456789] and no predicate, one
    [CombinedOutput()] returns [0123434567] and leaves [Stderr] reading
    [34345]. *)
Example MockCmd_CombinedOutput_writes_in_place :
  Mem.bytes_read
    (Mem.MockCmd.CombinedOutput Shared.store0
       (Mem.MockCmd.set_Stderr
          (Mem.MockCmd.set_Stdout Mem.MockCmd.zero
             (Some (Mem.reslice Shared.buf 0 5)))
          (Some (Mem.reslice Shared.buf 3 8))))
  = list_byte_of_string "0123434567"
  /\ Mem.read
       (Mem.store_of
          (Mem.MockCmd.CombinedOutput Shared.store0
             (Mem.MockCmd.set_Stderr
                (Mem.MockCmd.set_Stdout Mem.MockCmd.zero
                   (Some (Mem.reslice Shared.buf 0 5)))
                (Some (Mem.reslice Shared.buf 3 8)))))
       (Some (Mem.reslice Shared.buf 3 8))
     = list_byte_of_string "34345".
Proof. split; reflexivity. Qed.

(** ** The context *)

Lemma Mem_range_configs_set_Ctx (m : Mem.MultiCmdMockCmd.t) (v : Context) cs :
  Mem.MultiCmdMockCmd.range_configs (Mem.MultiCmdMockCmd.set_Ctx m v) cs
  = option_map (fun m' => Mem.MultiCmdMockCmd.set_Ctx m' v)
      (Mem.MultiCmdMockCmd.range_configs m cs).
Proof.
  induction cs as [|c cs IH]; [reflexivity|]. simpl.
  change (Mem.MultiCmdMockCmd.matches (Mem.MultiCmdMockCmd.set_Ctx m v) c)
    with (Mem.MultiCmdMockCmd.matches m c).
  destruct (Mem.MultiCmdMockCmd.matches m c); [reflexivity | exact IH].
Qed.

Lemma Mem_matchCommand_set_Ctx (m : Mem.MultiCmdMockCmd.t) (v : Context) :
  Mem.MultiCmdMockCmd.matchCommand (Mem.MultiCmdMockCmd.set_Ctx m v)
  = (Mem.MultiCmdMockCmd.set_Ctx
       (fst (Mem.MultiCmdMockCmd.matchCommand m)) v, None).
Proof.
  unfold Mem.MultiCmdMockCmd.matchCommand.
  change (Mem.MultiCmdMockCmd.set_lastMatchedCmd
            (Mem.MultiCmdMockCmd.set_Ctx m v) None)
    with (Mem.MultiCmdMockCmd.set_Ctx
            (Mem.MultiCmdMockCmd.set_lastMatchedCmd m None) v).
  change (Mem.MultiCmdMockCmd.configs
            (Mem.MultiCmdMockCmd.set_Ctx
               (Mem.MultiCmdMockCmd.set_lastMatchedCmd m None) v))
    with (Mem.MultiCmdMockCmd.configs
            (Mem.MultiCmdMockCmd.set_lastMatchedCmd m None)).
  rewrite Mem_range_configs_set_Ctx.
  destruct (Mem.MultiCmdMockCmd.range_configs _ _); reflexivity.
Qed.

Lemma Mem_perform_set_Ctx (k : call) (h : Mem.store)
    (m : Mem.MultiCmdMockCmd.t) (v : Context) :
  Mem.perform k h (Mem.MultiCmdMockCmd.set_Ctx m v)
  = (Mem.store_of (Mem.perform k h m),
     Mem.MultiCmdMockCmd.set_Ctx (Mem.state_of (Mem.perform k h m)) v,
     Mem.result_of (Mem.perform k h m)).
Proof.
  destruct k; unfold Mem.perform, Mem.MultiCmdMockCmd.Run,
    Mem.MultiCmdMockCmd.Output, Mem.MultiCmdMockCmd.CombinedOutput;
    rewrite Mem_matchCommand_set_Ctx, (Mem_matchCommand_eta m);
    cbn [fst snd]; try reflexivity.
  change (Mem.MultiCmdMockCmd.Stdout
            (Mem.MultiCmdMockCmd.set_Ctx
               (fst (Mem.MultiCmdMockCmd.matchCommand m)) v))
    with (Mem.MultiCmdMockCmd.Stdout
            (fst (Mem.MultiCmdMockCmd.matchCommand m))).
  change (Mem.MultiCmdMockCmd.Stderr
            (Mem.MultiCmdMockCmd.set_Ctx
               (fst (Mem.MultiCmdMockCmd.matchCommand m)) v))
    with (Mem.MultiCmdMockCmd.Stderr
            (fst (Mem.MultiCmdMockCmd.matchCommand m))).
  destruct (Mem.append _ _ _). reflexivity.
Qed.

Lemma Mem_perform_all_set_Ctx (ks : list call) :
  forall (h : Mem.store) (m : Mem.MultiCmdMockCmd.t) (v : Context),
    Mem.perform_all ks h (Mem.MultiCmdMockCmd.set_Ctx m v)
    = Mem.perform_all ks h m.
Proof.
  induction ks as [|k ks IH]; intros h m v; [reflexivity|].
  cbn [Mem.perform_all]. rewrite Mem_perform_set_Ctx.
  unfold Mem.store_of, Mem.state_of, Mem.result_of. cbn [fst snd].
  rewrite IH. reflexivity.
Qed.

(** X15: the factory stores the context in [Ctx] and no result-producing
    operation reads it.  With the byte slices followed down to their arrays:
    from one and the same store, two handles made by one factory for one
    invocation under two contexts return the same errors and the same bytes
    from every sequence of result-producing calls. *)
Theorem X15_context_ignored (cs : list Mem.CommandConfig.t) (name : string)
    (arg : slice string) (c1 c2 : Context) (h : Mem.store)
    (ks : list call) :
  Mem.MultiCmdMockCmd.Ctx (Mem.MultiCmdMock cs c1 name arg) = c1
  /\ Mem.MultiCmdMockCmd.Ctx (Mem.MultiCmdMock cs c2 name arg) = c2
  /\ Mem.perform_all ks h (Mem.MultiCmdMock cs c1 name arg)
     = Mem.perform_all ks h (Mem.MultiCmdMock cs c2 name arg).
Proof.
  split; [reflexivity|]. split; [reflexivity|].
  change (Mem.MultiCmdMock cs c1 name arg)
    with (Mem.MultiCmdMockCmd.set_Ctx (Mem.MultiCmdMock cs None name arg) c1).
  change (Mem.MultiCmdMock cs c2 name arg)
    with (Mem.MultiCmdMockCmd.set_Ctx (Mem.MultiCmdMock cs None name arg) c2).
  rewrite !Mem_perform_all_set_Ctx. reflexivity.
Qed.

(** ** Run and Output among CombinedOutput calls *)

Lemma Mem_perform_eq (k : call) (h : Mem.store) (m : Mem.MultiCmdMockCmd.t) :
  Mem.perform k h m
  = match k with
    | CallRun =>
        (h, fst (Mem.MultiCmdMockCmd.matchCommand m),
         RunResult
           (Mem.MultiCmdMockCmd.Err
              (fst (Mem.MultiCmdMockCmd.matchCommand m))))
    | CallOutput =>
        (h, fst (Mem.MultiCmdMockCmd.matchCommand m),
         OutputResult
           (Mem.content h
              (Mem.MultiCmdMockCmd.Stdout
                 (fst (Mem.MultiCmdMockCmd.matchCommand m))))
           (Mem.MultiCmdMockCmd.Err
              (fst (Mem.MultiCmdMockCmd.matchCommand m))))
    | CallCombinedOutput =>
        (fst (Mem.append h
                (Mem.MultiCmdMockCmd.Stdout
                   (fst (Mem.MultiCmdMockCmd.matchCommand m)))
                (Mem.MultiCmdMockCmd.Stderr
                   (fst (Mem.MultiCmdMockCmd.matchCommand m)))),
         fst (Mem.MultiCmdMockCmd.matchCommand m),
         OutputResult
           (Mem.content
              (fst (Mem.append h
                      (Mem.MultiCmdMockCmd.Stdout
                         (fst (Mem.MultiCmdMockCmd.matchCommand m)))
                      (Mem.MultiCmdMockCmd.Stderr
                         (fst (Mem.MultiCmdMockCmd.matchCommand m)))))
              (snd (Mem.append h
                      (Mem.MultiCmdMockCmd.Stdout
                         (fst (Mem.MultiCmdMockCmd.matchCommand m)))
                      (Mem.MultiCmdMockCmd.Stderr
                         (fst (Mem.MultiCmdMockCmd.matchCommand m))))))
           (Mem.MultiCmdMockCmd.Err
              (fst (Mem.MultiCmdMockCmd.matchCommand m))))
    end.
Proof.
  destruct k; unfold Mem.perform.
  - unfold Mem.MultiCmdMockCmd.Run. rewrite (Mem_matchCommand_eta m).
    reflexivity.
  - unfold Mem.MultiCmdMockCmd.Output. rewrite (Mem_matchCommand_eta m).
    reflexivity.
  - rewrite Mem_CombinedOutput_eq. reflexivity.
Qed.

Lemma content_frame (h : Mem.store) (s t u : Mem.byteslice) :
  Mem.within h s -> Mem.within h u ->
  Mem.apart s (List.length (Mem.read h t)) u ->
  Mem.content (fst (Mem.append h s t)) u = Mem.content h u.
Proof.
  intros Hs Hu Hap. destruct u as [v|]; [|reflexivity].
  unfold Mem.content. f_equal. apply append_frame; assumption.
Qed.

Lemma Mem_perform_all_stable (ks : list call) :
  forall (h : Mem.store) (m : Mem.MultiCmdMockCmd.t) (V : slice byte),
    Mem.within h
      (Mem.MultiCmdMockCmd.Stdout
         (fst (Mem.MultiCmdMockCmd.matchCommand m))) ->
    Mem.content h
      (Mem.MultiCmdMockCmd.Stdout (fst (Mem.MultiCmdMockCmd.matchCommand m)))
    = V ->
    Forall2
      (fun k r =>
         match k with
         | CallRun =>
             r = RunResult
                   (Mem.MultiCmdMockCmd.Err
                      (fst (Mem.MultiCmdMockCmd.matchCommand m)))
         | CallOutput =>
             r = OutputResult V
                   (Mem.MultiCmdMockCmd.Err
                      (fst (Mem.MultiCmdMockCmd.matchCommand m)))
         | CallCombinedOutput =>
             error_of r
             = Mem.MultiCmdMockCmd.Err
                 (fst (Mem.MultiCmdMockCmd.matchCommand m))
         end)
      ks (Mem.perform_all ks h m).
Proof.
  induction ks as [|k ks IH]; intros h m V Hw HV; [constructor|].
  cbn [Mem.perform_all]. rewrite Mem_perform_eq.
  assert (Hm' : Mem.MultiCmdMockCmd.matchCommand
                  (fst (Mem.MultiCmdMockCmd.matchCommand m))
                = Mem.MultiCmdMockCmd.matchCommand m)
    by apply Mem_matchCommand_settled.
  destruct k; unfold Mem.store_of, Mem.state_of, Mem.result_of;
    cbn [fst snd]; constructor.
  - reflexivity.
  - specialize (IH h (fst (Mem.MultiCmdMockCmd.matchCommand m)) V).
    rewrite Hm' in IH. apply IH; assumption.
  - rewrite HV. reflexivity.
  - specialize (IH h (fst (Mem.MultiCmdMockCmd.matchCommand m)) V).
    rewrite Hm' in IH. apply IH; assumption.
  - reflexivity.
  - specialize (IH (fst (Mem.append h
                           (Mem.MultiCmdMockCmd.Stdout
                              (fst (Mem.MultiCmdMockCmd.matchCommand m)))
                           (Mem.MultiCmdMockCmd.Stderr
                              (fst (Mem.MultiCmdMockCmd.matchCommand m)))))
                  (fst (Mem.MultiCmdMockCmd.matchCommand m)) V).
    rewrite Hm' in IH. apply IH.
    + apply append_within; assumption.
    + rewrite content_frame; [exact HV | exact Hw | exact Hw
                              | apply apart_self].
Qed.

(** X17: in any sequence of result-producing calls on one handle,
    [CombinedOutput()] included and whatever arrays the slices share, every
    [Run()] returns the error and every [Output()] the bytes and the error
    it would return as the first call, and every [CombinedOutput()] returns
    that same error: the in-place write of [CombinedOutput()] never reaches
    the elements of the handle's own [Stdout]. *)
Theorem X17_Run_Output_unaffected (ks : list call) (h : Mem.store)
    (m : Mem.MultiCmdMockCmd.t) :
  Mem.within h
    (Mem.MultiCmdMockCmd.Stdout (fst (Mem.MultiCmdMockCmd.matchCommand m))) ->
  Forall2
    (fun k r =>
       match k with
       | CallRun => r = Mem.result_of (Mem.perform CallRun h m)
       | CallOutput => r = Mem.result_of (Mem.perform CallOutput h m)
       | CallCombinedOutput =>
           error_of r
           = error_of (Mem.result_of (Mem.perform CallCombinedOutput h m))
       end)
    ks (Mem.perform_all ks h m).
Proof.
  intros Hw. rewrite !Mem_perform_eq. unfold Mem.result_of. cbn [snd error_of].
  apply Mem_perform_all_stable; [exact Hw | reflexivity].
Qed.

(** On the overlapping expectation, where the second [CombinedOutput()]
    differs from the first, [Output()] before, between and after them
    returns [01234] each time. *)
Lemma X17_Run_Output_unaffected_witness :
  Forall2
    (fun k r =>
       match k with
       | CallRun =>
           r = Mem.result_of
                 (Mem.perform CallRun Shared.store0
                    (Mem.MultiCmdMock [Shared.overlapping] Background "a"
                       None))
       | CallOutput =>
           r = Mem.result_of
                 (Mem.perform CallOutput Shared.store0
                    (Mem.MultiCmdMock [Shared.overlapping] Background "a"
                       None))
       | CallCombinedOutput =>
           error_of r
           = error_of
               (Mem.result_of
                  (Mem.perform CallCombinedOutput Shared.store0
                     (Mem.MultiCmdMock [Shared.overlapping] Background "a"
                        None)))
       end)
    [CallOutput; CallCombinedOutput; CallOutput; CallCombinedOutput;
     CallOutput]
    (Mem.perform_all
       [CallOutput; CallCombinedOutput; CallOutput; CallCombinedOutput;
        CallOutput]
       Shared.store0
       (Mem.MultiCmdMock [Shared.overlapping] Background "a" None)).
Proof.
  apply (X17_Run_Output_unaffected
           [CallOutput; CallCombinedOutput; CallOutput; CallCombinedOutput;
            CallOutput]
           Shared.store0
           (Mem.MultiCmdMock [Shared.overlapping] Background "a" None)).
  cbn. lia.
Defined.
